(** * Public routes of the moltworker sandbox supervisor

    A shallow embedding of the two versions of the public route table
    ([src/unnamed/part_000] and [src/unnamed/part_001]): the status probe,
    the factory reset and the diagnostics handler, written as programs over
    the calls they make to the sandbox, and run against an arbitrary
    sandbox behaviour. *)

From Stdlib Require Import ZArith.
From stdpp Require Import base tactics option list strings gmap.

Local Open Scope Z_scope.
Local Open Scope string_scope.
Local Set Warnings "-register-all".

(** ** Values of the handlers *)

(** What a [catch] clause receives: an [Error] instance with its message, or
    any other thrown value (for which [err instanceof Error] is false). *)
Inductive thrown : Type :=
| ErrorObj (message : string)
| NonError (repr : string).

(** [err instanceof Error ? err.message : 'Unknown error'] *)
Definition error_message (err : thrown) : string :=
  match err with
  | ErrorObj message => message
  | NonError _ => "Unknown error"
  end.

(** The outcome of an awaited promise. *)
Inductive settled (A : Type) : Type :=
| Fulfilled (a : A)
| Rejected (e : thrown).
Arguments Fulfilled {A} a.
Arguments Rejected {A} e.

Definition is_rejected {A} (r : settled A) : bool :=
  match r with Rejected _ => true | Fulfilled _ => false end.

(** A process handle of the sandbox; the handlers read only its [id]. *)
Record Process : Type := { id : string }.

(** The result of [proc.getLogs()]. *)
Record Logs : Type := { stdout : string; stderr : string }.

(** JSON values built by the handlers; an object keeps its keys in the
    order the source writes them. *)
Inductive json : Type :=
| JString (s : string)
| JBool (b : bool)
| JNumber (n : Z)
| JObject (fields : list (string * json)).

(** A response: [c.json(body)] (status 200), [c.json(body, status)], or
    whatever [c.env.ASSETS.fetch] resolved to, passed through. *)
Inductive Response : Type :=
| Json (body : json) (status : Z)
| Asset (content : string).

Definition c_json (body : json) : Response := Json body 200.

(** Field lookup in a JSON body, first key wins. *)
Fixpoint assoc (k : string) (fields : list (string * json)) : option json :=
  match fields with
  | [] => None
  | (k', v) :: rest => if decide (k = k') then Some v else assoc k rest
  end.

Definition field (k : string) (r : Response) : option json :=
  match r with
  | Json (JObject fields) _ => assoc k fields
  | _ => None
  end.

(** The body with every field named [k] removed. *)
Definition without_field (k : string) (r : Response) : Response :=
  match r with
  | Json (JObject fields) st =>
      Json (JObject (filter (λ kv, kv.1 ≠ k) fields)) st
  | _ => r
  end.

(** ** Requests *)

Inductive Method : Type := GET | POST | PUT | DELETE | PATCH | HEAD | OPTIONS.

Global Instance Method_eq_dec : EqDecision Method.
Proof. solve_decision. Defined.

(** A request ([c.req.raw]): its method and the parts of
    [new URL(c.req.url)]: origin, pathname, and the query string [search]
    (with its leading [?], or empty).  Headers and body are not kept. *)
Record Request : Type := {
  method : Method;
  origin : string;
  pathname : string;
  search : string
}.

Global Instance Request_eq_dec : EqDecision Request.
Proof. solve_decision. Defined.

(** ** Calls to the environment *)

(** The awaited calls.  [findExistingMoltbotProcess] and
    [killAllMoltbotProcesses] are imported from [../gateway] and are taken
    as calls with an arbitrary outcome, like the sandbox's own methods; the
    value [killAllMoltbotProcesses] resolves to is discarded by the
    handlers. *)
Inductive call : Type :=
| startProcess (cmd : string)
| getLogs (p : Process)
| findExistingMoltbotProcess
| waitForPort (p : Process) (port : Z) (mode : string) (timeout : Z)
| killAllMoltbotProcesses
| ASSETS_fetch (request : Request).

Definition ret_ty (c : call) : Type :=
  match c with
  | startProcess _ => Process
  | getLogs _ => Logs
  | findExistingMoltbotProcess => option Process
  | waitForPort _ _ _ _ => unit
  | killAllMoltbotProcesses => unit
  | ASSETS_fetch _ => Response
  end.

(** Everything a handler does to the outside: awaited calls and console
    output. *)
Inductive op : Type :=
| Await (c : call)
| console_log (msg : string)
| console_error (msg : string) (e : thrown).

Definition resp (o : op) : Type :=
  match o with
  | Await c => settled (ret_ty c)
  | console_log _ => unit
  | console_error _ _ => unit
  end.

Global Instance thrown_eq_dec : EqDecision thrown.
Proof. solve_decision. Defined.
Global Instance Process_eq_dec : EqDecision Process.
Proof. solve_decision. Defined.
Global Instance call_eq_dec : EqDecision call.
Proof. solve_decision. Defined.
Global Instance op_eq_dec : EqDecision op.
Proof. solve_decision. Defined.

(** ** Handler programs *)

(** A program: a finite tree of operations, each continued on its answer. *)
Inductive Prog (A : Type) : Type :=
| Ret (a : A)
| Vis (o : op) (k : resp o → Prog A).
Arguments Ret {A} a.
Arguments Vis {A} o k.

Fixpoint bind {A B} (m : Prog A) (f : A → Prog B) : Prog B :=
  match m with
  | Ret a => f a
  | Vis o k => Vis o (λ r, bind (k r) f)
  end.

(** The body of an [async] function: it returns or throws. *)
Definition Async (A : Type) : Type := Prog (settled A).

Definition pure {A} (a : A) : Async A := Ret (Fulfilled a).
Definition throw {A} (e : thrown) : Async A := Ret (Rejected e).

Definition and_then {A B} (m : Async A) (f : A → Async B) : Async B :=
  bind m (λ r, match r with
               | Fulfilled a => f a
               | Rejected e => Ret (Rejected e)
               end).

(** [try { body } catch (e) { handler e }] *)
Definition try_catch {A} (body : Async A) (handler : thrown → Async A) : Async A :=
  bind body (λ r, match r with
                  | Fulfilled a => Ret (Fulfilled a)
                  | Rejected e => handler e
                  end).

(** [await c] *)
Definition await (c : call) : Async (ret_ty c) := Vis (Await c) Ret.

Definition log (msg : string) : Async unit :=
  Vis (console_log msg) (λ _, pure tt).
Definition log_error (msg : string) (e : thrown) : Async unit :=
  Vis (console_error msg e) (λ _, pure tt).

Declare Scope async_scope.
Delimit Scope async_scope with async.
Notation "x ← m ; k" := (and_then m (λ x, k))
  (at level 20, m at level 100, k at level 200, only parsing) : async_scope.
Notation "m ;; k" := (and_then m (λ _, k))
  (at level 100, k at level 200, right associativity, only parsing) : async_scope.
Bind Scope async_scope with Async.

(** ** Running a program against a sandbox *)

(** A sandbox behaviour: a state and the answer it gives to each operation. *)
Record World : Type := {
  wstate : Type;
  respond : ∀ o : op, wstate → resp o * wstate
}.

(** One operation together with the answer it settled with. *)
Inductive event : Type := Event (o : op) (r : resp o).

Definition ev_op (e : event) : op := match e with Event o _ => o end.

Record outcome (S A : Type) : Type := {
  result : A;
  trace : list event;
  final : S
}.
Arguments result {S A} _.
Arguments trace {S A} _.
Arguments final {S A} _.

Fixpoint run (W : World) {A} (p : Prog A) (s : wstate W) : outcome (wstate W) A :=
  match p with
  | Ret a => {| result := a; trace := []; final := s |}
  | Vis o k =>
      let rs := respond W o s in
      let out := run W (k rs.1) rs.2 in
      {| result := result out;
         trace := Event o rs.1 :: trace out;
         final := final out |}
  end.

(** The awaited calls of a trace, in the order they were issued. *)
Definition call_of (e : event) : option call :=
  match ev_op e with Await c => Some c | _ => None end.

Definition calls (t : list event) : list call := omap call_of t.

(** Whether an event is an awaited call that rejected. *)
Definition rejected (e : event) : bool :=
  match e with
  | Event (Await c) r => is_rejected r
  | Event _ _ => false
  end.


(** The error a trace event rejected with, if it did. *)
Definition rejection (e : event) : option thrown :=
  match e with
  | Event (Await c) r =>
      match r with Rejected err => Some err | Fulfilled _ => None end
  | Event _ _ => None
  end.

(** How a phase went: the error the first call [c] of the trace rejected
    with; [None] when it fulfilled (or was never issued). *)
Definition phase_error (c : call) (t : list event) : option thrown :=
  match List.find (λ e, bool_decide (call_of e = Some c)) t with
  | Some e => rejection e
  | None => None
  end.

Definition no_rejection (t : list event) : bool := negb (existsb rejected t).

(** ** The request context *)

(** [c.env]: the secret binding read by [/diagnose]; [None] is an unset
    binding ([undefined]). *)
Record Env : Type := { MOLTBOT_GATEWAY_TOKEN : option string }.

Record Context : Type := { req : Request; env : Env }.

(** JavaScript truthiness of a [string | undefined] value. *)
Definition truthy (v : option string) : bool :=
  match v with
  | Some s => bool_decide (s ≠ "")
  | None => false
  end.

(** [s.replace(pat, rep)] with a string pattern: the first occurrence only. *)
Fixpoint replace_first (pat rep s : string) : string :=
  if String.prefix pat s then rep +:+ String.substring (String.length pat) (String.length s) s
  else match s with
       | "" => ""
       | String a s' => String a (replace_first pat rep s')
       end.


(** ** Routing *)

(** A registered route: [publicRoutes.get(path, h)] has [Some GET],
    [publicRoutes.all(path, h)] has no method restriction. *)
Record Route : Type := {
  r_method : option Method;
  r_path : string;
  r_handler : Context → Async Response
}.

Definition get (path : string) (h : Context → Async Response) : Route :=
  {| r_method := Some GET; r_path := path; r_handler := h |}.
Definition all (path : string) (h : Context → Async Response) : Route :=
  {| r_method := None; r_path := path; r_handler := h |}.

(** A path pattern is literal, or ends in [/*] and matches everything below
    (and the directory itself). *)
Definition path_matches (pattern path : string) : bool :=
  let n := String.length pattern in
  if bool_decide (String.substring (n - 2) 2 pattern = "/*")
  then bool_decide (path = String.substring 0 (n - 2) pattern)
       || String.prefix (String.substring 0 (n - 1) pattern) path
  else bool_decide (path = pattern).

(** The method a request is routed under: the router serves HEAD through
    the routes registered for GET (and sends the answer without its
    body). *)
Definition routed_method (m : Method) : Method :=
  match m with
  | HEAD => GET
  | m => m
  end.

(** A path without percent-escapes.  The router matches the
    percent-decoded path; [route_matches] compares the pathname as it is,
    which is the same thing for a path that is [percent_free].  The
    decoding itself is not modelled: statements about arbitrary paths
    assume [percent_free]. *)
Definition percent_free (path : string) : bool :=
  forallb (λ a, negb (Ascii.eqb a (Ascii.ascii_of_nat 37)))
          (String.list_ascii_of_string path).

Definition route_matches (q : Request) (r : Route) : bool :=
  match r_method r with
  | None => true
  | Some m => bool_decide (m = routed_method (method q))
  end && path_matches (r_path r) (pathname q).

(** The handler a request reaches: the first registered route that matches
    (every handler here answers without calling [next]).  For a HEAD
    request this is the handler that runs; its body is then dropped. *)
Definition dispatch (routes : list Route) (c : Context) : option (Async Response) :=
  match List.find (route_matches (req c)) routes with
  | Some r => Some (r_handler r c)
  | None => None
  end.

(** ** Handlers that are the same text in both files *)

Section Handlers.
Local Open Scope async_scope.

(** [GET /sandbox-health]; [MOLTBOT_PORT] is imported from [../config]. *)
Definition sandbox_health (MOLTBOT_PORT : Z) (c : Context) : Async Response :=
  pure (c_json (JObject [("status", JString "ok");
                         ("service", JString "moltbot-sandbox");
                         ("gateway_port", JNumber MOLTBOT_PORT)])).

(** [GET /logo.png] and [GET /logo-small.png]: the request is handed to
    [ASSETS.fetch] as it came. *)
Definition serve_asset (c : Context) : Async Response :=
  await (ASSETS_fetch (req c)).

(** [GET /api/status] *)
Definition api_status (c : Context) : Async Response :=
  try_catch
    (process ← await findExistingMoltbotProcess;
     match process with
     | None =>
         pure (c_json (JObject [("ok", JBool false); ("status", JString "not_running")]))
     | Some process =>
         try_catch
           (await (waitForPort process 18789 "tcp" 5000);;
            pure (c_json (JObject [("ok", JBool true);
                                   ("status", JString "running");
                                   ("processId", JString (id process))])))
           (λ _,
            pure (c_json (JObject [("ok", JBool false);
                                   ("status", JString "not_responding");
                                   ("processId", JString (id process))])))
     end)
    (λ err,
     pure (c_json (JObject [("ok", JBool false);
                            ("status", JString "error");
                            ("error", JString (error_message err))]))).

(** [GET /_admin/assets/*]: [new Request(assetUrl.toString(), c.req.raw)]
    has the URL made of the origin and the rewritten path (no query) and
    takes the rest from the request as it came. *)
Definition admin_assets (c : Context) : Async Response :=
  let assetPath := replace_first "/_admin/assets/" "/assets/" (pathname (req c)) in
  await (ASSETS_fetch {| method := method (req c);
                         origin := origin (req c);
                         pathname := assetPath;
                         search := "" |}).

End Handlers.

(** The two shell commands of the factory reset, as the source writes them. *)
Definition rm_local : string := "rm -rf /root/.openclaw /root/.clawdbot".
Definition rm_backup : string :=
  "rm -rf /data/moltbot/openclaw /data/moltbot/clawdbot /data/moltbot/.last-sync /data/moltbot/openclaw.json /data/moltbot/clawdbot.json".

Definition reset_ok : Response :=
  c_json (JObject [("status", JString "ok");
                   ("message", JString "Factory reset initiated. Gateway will restart and onboard freshly on next request.")]).

Definition reset_error (err : thrown) : Response :=
  Json (JObject [("status", JString "error");
                 ("message", JString (error_message err))]) 500.

(** ** [src/unnamed/part_000] *)

Module Part000.
Local Open Scope async_scope.

(** [publicRoutes.all('/reset-factory-defaults', ...)], lines 72-101: kill
    first, then the two wipes, all under one [try]. *)
Definition reset_factory_defaults (c : Context) : Async Response :=
  try_catch
    (log "[RESET] Initiating factory reset...";;
     await killAllMoltbotProcesses;;
     log "[RESET] Processes killed";;
     await (startProcess rm_local);;
     log "[RESET] Local config wiped";;
     await (startProcess rm_backup);;
     log "[RESET] R2 backup wiped (attempted)";;
     pure reset_ok)
    (λ err,
     log_error "[RESET] Failed:" err;;
     pure (reset_error err)).

Definition publicRoutes (MOLTBOT_PORT : Z) : list Route :=
  [ get "/sandbox-health" (sandbox_health MOLTBOT_PORT);
    get "/logo.png" serve_asset;
    get "/logo-small.png" serve_asset;
    get "/api/status" api_status;
    get "/_admin/assets/*" admin_assets;
    all "/reset-factory-defaults" reset_factory_defaults ].

End Part000.

(** ** [src/unnamed/part_001] *)

Module Part001.
Local Open Scope async_scope.

(** [publicRoutes.all('/reset-factory-defaults', ...)], lines 72-108: each
    wipe under its own [try], then the kill under the outer one. *)
Definition reset_factory_defaults (c : Context) : Async Response :=
  try_catch
    (log "[RESET] Initiating factory reset...";;
     try_catch
       (await (startProcess rm_local);;
        log "[RESET] Local config wiped")
       (λ e, log_error "[RESET] Failed to wipe local config:" e);;
     try_catch
       (await (startProcess rm_backup);;
        log "[RESET] R2 backup wiped (attempted)")
       (λ e, log_error "[RESET] Failed to wipe R2 backup:" e);;
     await killAllMoltbotProcesses;;
     log "[RESET] Processes killed";;
     pure reset_ok)
    (λ err,
     log_error "[RESET] Failed:" err;;
     pure (reset_error err)).

(** The [envConfig] field of the snapshot. *)
Definition envConfig (e : Env) : string :=
  if truthy (MOLTBOT_GATEWAY_TOKEN e) then "Has TOKEN env" else "No TOKEN env".

(** [publicRoutes.get('/diagnose', ...)], lines 111-139. *)
Definition diagnose (c : Context) : Async Response :=
  try_catch
    (configProc ← await (startProcess "cat /root/.openclaw/openclaw.json");
     configLogs ← await (getLogs configProc);
     envProc ← await (startProcess "env");
     envLogs ← await (getLogs envProc);
     lsR2Proc ← await (startProcess "ls -la /data/moltbot");
     lsR2Logs ← await (getLogs lsR2Proc);
     lsLocalProc ← await (startProcess "ls -la /root/.openclaw");
     lsLocalLogs ← await (getLogs lsLocalProc);
     pure (c_json (JObject [("config", JString (stdout configLogs));
                            ("env", JString (stdout envLogs));
                            ("lsR2", JString (stdout lsR2Logs));
                            ("lsLocal", JString (stdout lsLocalLogs));
                            ("envConfig", JString (envConfig (env c)))])))
    (λ e,
     pure (Json (JObject [("error", JString (error_message e))]) 500)).

Definition publicRoutes (MOLTBOT_PORT : Z) : list Route :=
  [ get "/sandbox-health" (sandbox_health MOLTBOT_PORT);
    get "/logo.png" serve_asset;
    get "/logo-small.png" serve_asset;
    get "/api/status" api_status;
    get "/_admin/assets/*" admin_assets;
    all "/reset-factory-defaults" reset_factory_defaults;
    get "/diagnose" diagnose ].

End Part001.

(** ** Shapes the statements below talk about *)

(** In a trace, every call to [killAllMoltbotProcesses] comes after both
    wipe commands were issued and had settled. *)
Definition wipes_settled_before_kill (t : list event) : Prop :=
  ∀ before r after,
    t = (before ++ Event (Await killAllMoltbotProcesses) r :: after)%list →
    startProcess rm_local ∈ calls before ∧ startProcess rm_backup ∈ calls before.

Definition not_running : Response :=
  c_json (JObject [("ok", JBool false); ("status", JString "not_running")]).

Definition not_responding (process : Process) : Response :=
  c_json (JObject [("ok", JBool false);
                   ("status", JString "not_responding");
                   ("processId", JString (id process))]).

Definition cat_config : call := startProcess "cat /root/.openclaw/openclaw.json".
Definition dump_env : call := startProcess "env".
Definition ls_backup : call := startProcess "ls -la /data/moltbot".
Definition ls_local : call := startProcess "ls -la /root/.openclaw".

Definition snapshot (config env_ lsR2 lsLocal : Logs) (e : Env) : Response :=
  c_json (JObject [("config", JString (stdout config));
                   ("env", JString (stdout env_));
                   ("lsR2", JString (stdout lsR2));
                   ("lsLocal", JString (stdout lsLocal));
                   ("envConfig", JString (Part001.envConfig e))]).

Definition map_settled {A B} (f : A → B) (r : settled A) : settled B :=
  match r with
  | Fulfilled a => Fulfilled (f a)
  | Rejected e => Rejected e
  end.

(** The string values of a JSON value. *)
Fixpoint strings_of (j : json) : list string :=
  match j with
  | JString s => [s]
  | JBool _ => []
  | JNumber _ => []
  | JObject fields =>
      (fix go (fs : list (string * json)) : list string :=
         match fs with
         | [] => []
         | (_, v) :: rest => (strings_of v ++ go rest)%list
         end) fields
  end.

Definition response_strings (r : Response) : list string :=
  match r with
  | Json body _ => strings_of body
  | Asset content => [content]
  end.

(** The text the sandbox handed to the handler in one event: the stdout of
    fetched logs, or the message of the error a call rejected with. *)
Definition sandbox_text (e : event) : list string :=
  match e with
  | Event (Await c) r =>
      match c return settled (ret_ty c) → list string with
      | getLogs _ => λ r,
          match r with
          | Fulfilled l => [stdout l]
          | Rejected err => [error_message err]
          end
      | _ => λ r,
          match r with
          | Fulfilled _ => []
          | Rejected err => [error_message err]
          end
      end r
  | Event _ _ => []
  end.

Definition sandbox_texts (t : list event) : list string := flat_map sandbox_text t.

(** ** The storage the wipes act on *)

(** The declared path set, as the specification lists it: two local
    directories and five entries of the backup volume.  It is compared
    below with the operands of the two commands of the source. *)
Definition local_targets : list string := ["/root/.openclaw"; "/root/.clawdbot"].
Definition backup_targets : list string :=
  ["/data/moltbot/openclaw"; "/data/moltbot/clawdbot"; "/data/moltbot/.last-sync";
   "/data/moltbot/openclaw.json"; "/data/moltbot/clawdbot.json"].
Definition wipe_targets : list string := (local_targets ++ backup_targets)%list.

(** The operands of an [rm -rf] command line. *)
Definition parse_rm_rf (cmd : string) : option (list string) :=
  match String.words cmd with
  | "rm" :: "-rf" :: targets => Some targets
  | _ => None
  end.

(** A word the shell hands to the command as it is written: letters, digits
    and [/ . _ -] only, so no wildcard, brace, tilde or variable expansion
    applies to it. *)
Definition plain_chars : string :=
  "abcdefghijklmnopqrstuvwxyzABCDEFGHIJKLMNOPQRSTUVWXYZ0123456789/._-".
Definition plain_word (w : string) : bool :=
  forallb (λ a, bool_decide (a ∈ String.list_ascii_of_string plain_chars))
          (String.list_ascii_of_string w).

(** [p] is [target] or lies below it. *)
Definition under (target p : string) : bool :=
  bool_decide (p = target) || String.prefix (target +:+ "/") p.

Definition wiped_by (targets : list string) (p : string) : bool :=
  existsb (λ t, under t p) targets.

(** Storage: the content found at each path.  The command is run by the
    sandbox's shell, not by this code; its meaning is taken to be the usual
    one: [rm -rf targets] removes each target and what lies below it, and a
    target that is absent is no error. *)
Definition rm_rf (targets : list string) (files : gmap string string) : gmap string string :=
  filter (λ kv, wiped_by targets kv.1 = false) files.

(** The effect of a wipe phase on storage, given how its call settled. *)
Definition wipe_effect (err : option thrown) (targets : list string)
    (files : gmap string string) : gmap string string :=
  match err with
  | None => rm_rf targets files
  | Some _ => files
  end.

(** ** Sandboxes used to exercise the handlers *)

(** A sandbox without state, answering each operation by a fixed table. *)
Definition scripted (answer : ∀ o : op, resp o) : World :=
  {| wstate := unit; respond := λ o s, (answer o, s) |}.

(** Every call fulfils; a started process takes its command as id, and no
    gateway process is registered. *)
Definition calm_call (c : call) : settled (ret_ty c) :=
  match c with
  | startProcess cmd => Fulfilled {| id := cmd |}
  | getLogs p => Fulfilled {| stdout := ""; stderr := "" |}
  | findExistingMoltbotProcess => Fulfilled None
  | waitForPort _ _ _ _ => Fulfilled tt
  | killAllMoltbotProcesses => Fulfilled tt
  | ASSETS_fetch q => Fulfilled (Asset (origin q +:+ pathname q +:+ search q))
  end.

Definition answer_calls (f : ∀ c : call, settled (ret_ty c)) (o : op) : resp o :=
  match o with
  | Await c => f c
  | console_log _ => tt
  | console_error _ _ => tt
  end.

Definition calm : World := scripted (answer_calls calm_call).

(** As [calm], but terminating the gateway processes times out. *)
Definition kill_times_out : World :=
  scripted (answer_calls (λ c,
    match c with
    | killAllMoltbotProcesses => Rejected (ErrorObj "kill timed out")
    | c => calm_call c
    end)).

(** As [calm], but the sandbox refuses to start the local wipe. *)
Definition local_wipe_denied : World :=
  scripted (answer_calls (λ c,
    match c with
    | startProcess cmd =>
        if decide (cmd = rm_local) then Rejected (ErrorObj "permission denied")
        else calm_call (startProcess cmd)
    | c => calm_call c
    end)).

(** A gateway process is registered but its port never opens. *)
Definition gateway_stuck : World :=
  scripted (answer_calls (λ c,
    match c with
    | findExistingMoltbotProcess => Fulfilled (Some {| id := "gw-1" |})
    | waitForPort _ _ _ _ => Rejected (ErrorObj "timed out waiting for port 18789")
    | c => calm_call c
    end)).

(** The config file is absent: [cat] starts, prints nothing on stdout and
    complains on stderr; the other commands print something. *)
Definition config_absent : World :=
  scripted (answer_calls (λ c,
    match c with
    | getLogs p =>
        if decide (id p = "cat /root/.openclaw/openclaw.json")
        then Fulfilled {| stdout := "";
                          stderr := "cat: /root/.openclaw/openclaw.json: No such file or directory" |}
        else Fulfilled {| stdout := "out of: " +:+ id p; stderr := "" |}
    | c => calm_call c
    end)).

(** The sandbox is unable to start the command that reads the config file. *)
Definition config_read_throws : World :=
  scripted (answer_calls (λ c,
    match c with
    | startProcess cmd =>
        if decide (cmd = "cat /root/.openclaw/openclaw.json")
        then Rejected (ErrorObj "sandbox unreachable")
        else calm_call (startProcess cmd)
    | c => calm_call c
    end)).

Definition a_context : Context :=
  {| req := {| method := POST; origin := "https://worker.example";
               pathname := "/reset-factory-defaults"; search := "" |};
     env := {| MOLTBOT_GATEWAY_TOKEN := Some "5ec2e7" |} |}.


(** A sandbox that is only a disk: [rm -rf] of plain words is carried out
    when the process starts, every other command leaves the disk as it is,
    and every call fulfils. *)
Definition disk : World :=
  {| wstate := gmap string string;
     respond := λ o files,
       (answer_calls calm_call o,
        match o with
        | Await (startProcess cmd) =>
            match parse_rm_rf cmd with
            | Some targets =>
                if forallb plain_word targets then rm_rf targets files else files
            | None => files
            end
        | _ => files
        end) |}.

Definition a_disk : gmap string string :=
  {[ "/root/.openclaw/openclaw.json" := "{}";
     "/root/.clawdbot" := "";
     "/root/.openclawrc" := "keep";
     "/root/notes.txt" := "remember";
     "/data/moltbot/.last-sync" := "2026-01-01";
     "/data/moltbot/openclaw/openclaw.json" := "{}";
     "/data/moltbot/skills/a.md" := "skill" ]}.


(** ** [src/set_gateway_token.cjs] *)

Module SetGatewayToken.

(** [buf.toString('hex')]: two lower-case hexadecimal digits per byte. *)
Definition hex_digit (n : N) : Ascii.ascii :=
  match String.get (N.to_nat n) "0123456789abcdef" with
  | Some a => a
  | None => Ascii.ascii_of_nat 63
  end.

Definition hex_of_byte (b : Byte.byte) : string :=
  String (hex_digit (Byte.to_N b / 16)) (String (hex_digit (Byte.to_N b mod 16)) "").

Fixpoint toString_hex (buf : list Byte.byte) : string :=
  match buf with
  | [] => ""
  | b :: rest => hex_of_byte b +:+ toString_hex rest
  end.

(** Reading a hexadecimal string back ([Buffer.from(s, 'hex')] on
    well-formed input); used to state that the encoding loses nothing. *)
Definition digit_value (a : Ascii.ascii) : option N :=
  let n := Ascii.N_of_ascii a in
  if bool_decide (48 ≤ n ≤ 57)%N then Some (n - 48)%N
  else if bool_decide (97 ≤ n ≤ 102)%N then Some (n - 87)%N
  else None.

Fixpoint from_hex (s : string) : option (list Byte.byte) :=
  match s with
  | "" => Some []
  | String hi (String lo rest) =>
      match digit_value hi, digit_value lo, from_hex rest with
      | Some h, Some l, Some bs =>
          match Byte.of_N (16 * h + l) with
          | Some b => Some (b :: bs)
          | None => None
          end
      | _, _, _ => None
      end
  | String _ "" => None
  end.

(** What the script asks of Node: [crypto.randomBytes], [console.log],
    [fs.writeFileSync], [execSync] and [fs.unlinkSync].  The three
    synchronous calls that touch the system either return or throw. *)
Inductive sys : Type :=
| randomBytes (size : nat)
| console_log (line : string)
| writeFileSync (path data : string)
| execSync (command : string)
| unlinkSync (path : string).

Definition sys_resp (o : sys) : Type :=
  match o with
  | randomBytes _ => list Byte.byte
  | console_log _ => unit
  | writeFileSync _ _ => settled unit
  | execSync _ => settled unit
  | unlinkSync _ => settled unit
  end.

Inductive Script (A : Type) : Type :=
| Done (a : A)
| Do (o : sys) (k : sys_resp o → Script A).
Arguments Done {A} a.
Arguments Do {A} o k.

(** A call that may throw, followed by the rest of the script; an
    exception is not caught anywhere and ends the script. *)
Definition attempt (o : sys) (as_settled : sys_resp o → settled unit)
    (rest : Script (settled unit)) : Script (settled unit) :=
  Do o (λ r, match as_settled r with
             | Fulfilled _ => rest
             | Rejected e => Done (Rejected e)
             end).

Definition dquote : string := String (Ascii.ascii_of_nat 34) "".

Definition banner : string := "========================================".
Definition temp_file : string := "temp_token.txt".
Definition put_secret : string :=
  "cmd /c " +:+ dquote +:+
  "type temp_token.txt | npx wrangler secret put MOLTBOT_GATEWAY_TOKEN" +:+ dquote.

(** The script, top to bottom (both copies in the file run the same
    statements in the same order). *)
Definition main : Script (settled unit) :=
  Do (randomBytes 32) (λ buf,
  let token := toString_hex buf in
  Do (console_log banner) (λ _,
  Do (console_log "GATEWAY_TOKEN (このトークンを必ずメモしてください！):") (λ _,
  Do (console_log token) (λ _,
  Do (console_log banner) (λ _,
  attempt (writeFileSync temp_file token) (λ r, r)
    (attempt (execSync put_secret) (λ r, r)
       (attempt (unlinkSync temp_file) (λ r, r)
          (Done (Fulfilled tt))))))))).

(** The machine the script runs on. *)
Record Machine : Type := {
  mstate : Type;
  answer : ∀ o : sys, mstate → sys_resp o * mstate
}.

Inductive step : Type := Step (o : sys) (r : sys_resp o).

Fixpoint exec (M : Machine) {A} (p : Script A) (s : mstate M)
    : A * list step * mstate M :=
  match p with
  | Done a => (a, [], s)
  | Do o k =>
      let rs := answer M o s in
      let '(a, t, s') := exec M (k rs.1) rs.2 in
      (a, Step o rs.1 :: t, s')
  end.

(** The system calls of a run, in order. *)
Definition asked (t : list step) : list sys :=
  List.map (λ e, match e with Step o _ => o end) t.

Global Instance sys_eq_dec : EqDecision sys.
Proof. solve_decision. Defined.

(** The exception a step ended with, if it threw. *)
Definition failure (e : step) : option thrown :=
  match e with
  | Step o r =>
      match o return sys_resp o → option thrown with
      | randomBytes _ => λ _, None
      | console_log _ => λ _, None
      | writeFileSync _ _ => λ r, match r with Rejected err => Some err | Fulfilled _ => None end
      | execSync _ => λ r, match r with Rejected err => Some err | Fulfilled _ => None end
      | unlinkSync _ => λ r, match r with Rejected err => Some err | Fulfilled _ => None end
      end r
  end.

(** The exception the first call [o] of a run threw; [None] when it
    returned (or was never made). *)
Definition thrown_by (o : sys) (t : list step) : option thrown :=
  match List.find (λ e, match e with Step o' _ => bool_decide (o' = o) end) t with
  | Some e => failure e
  | None => None
  end.

(** The bytes the random source handed out in a run. *)
Definition generated (t : list step) : option (list Byte.byte) :=
  match t with
  | Step o r :: _ =>
      match o return sys_resp o → option (list Byte.byte) with
      | randomBytes _ => λ buf, Some buf
      | _ => λ _, None
      end r
  | [] => None
  end.

(** A machine that is a directory of files: writing and unlinking act on
    it, [execSync] succeeds or fails as [wrangler_ok] says and leaves the
    files alone, and the random source hands out [entropy]. *)
Definition desk (entropy : list Byte.byte) (wrangler_ok : bool) : Machine :=
  {| mstate := gmap string string;
     answer := λ o,
       match o return gmap string string → sys_resp o * gmap string string with
       | randomBytes n => λ files, (take n entropy, files)
       | console_log _ => λ files, (tt, files)
       | writeFileSync path data => λ files, (Fulfilled tt, <[path := data]> files)
       | execSync _ => λ files,
           (if wrangler_ok then Fulfilled tt
            else Rejected (ErrorObj "Command failed"), files)
       | unlinkSync path => λ files,
           match files !! path with
           | Some _ => (Fulfilled tt, delete path files)
           | None => (Rejected (ErrorObj "ENOENT"), files)
           end
       end |}.

Definition some_entropy : list Byte.byte :=
  List.repeat Byte.x00 10 ++ List.repeat Byte.xff 10 ++ List.repeat Byte.x3c 12.

End SetGatewayToken.

(** The disk sandbox, with a gateway that cannot be killed. *)
Definition disk_kill_fails : World :=
  {| wstate := gmap string string;
     respond := λ o,
       match o return gmap string string → resp o * gmap string string with
       | Await c =>
           match c return gmap string string → resp (Await c) * gmap string string with
           | killAllMoltbotProcesses => λ files, (Rejected (ErrorObj "kill timed out"), files)
           | c' => respond disk (Await c')
           end
       | o' => respond disk o'
       end |}.

(** [needle] occurs somewhere in [hay]. *)
Fixpoint occurs (needle hay : string) : bool :=
  String.prefix needle hay
  || match hay with
     | "" => false
     | String _ rest => occurs needle rest
     end.

(** The fixed strings the diagnose handler can put in a response. *)
Definition diagnose_constants : list string :=
  ["Has TOKEN env"; "No TOKEN env"; "Unknown error"].

(** A sandbox whose environment holds the gateway token: [env] prints it. *)
Definition leaky : World :=
  scripted (answer_calls (λ c,
    match c with
    | getLogs p =>
        if decide (id p = "env")
        then Fulfilled {| stdout := "MOLTBOT_GATEWAY_TOKEN=5ec2e7"; stderr := "" |}
        else Fulfilled {| stdout := "out of: " +:+ id p; stderr := "" |}
    | c => calm_call c
    end)).


(** * Proofs *)

(** Case analysis on the answer of the next operation a run asks for. *)
Ltac answer :=
  match goal with
  | |- context [respond ?W ?o ?s] =>
      is_var s;
      let r := fresh "r" in
      let s' := fresh "s" in
      destruct (respond W o s) as [r s'] eqn:?; cbn in r;
      try (destruct r as [?|?] || destruct r); cbn
  end.

Ltac answers := cbn; repeat answer.

(** Evaluate [phase_error] on the explicit trace of the goal. *)
Ltac eval_phases :=
  repeat match goal with
  | |- context [phase_error ?c ?t] =>
      let v := eval vm_compute in (phase_error c t) in
      change (phase_error c t) with v
  end.

(** Membership in an explicit list. *)
Ltac in_list := repeat first [apply list_elem_of_here | apply list_elem_of_further].

Section ResetRuns.
Variable W : World.
Variable c : Context.
Variable s : wstate W.

Lemma reset001_calls :
  calls (trace (run W (Part001.reset_factory_defaults c) s))
  = [startProcess rm_local; startProcess rm_backup; killAllMoltbotProcesses].
Proof. answers; reflexivity. Qed.

Lemma reset001_result :
  result (run W (Part001.reset_factory_defaults c) s)
  = Fulfilled
      match phase_error killAllMoltbotProcesses
              (trace (run W (Part001.reset_factory_defaults c) s)) with
      | None => reset_ok
      | Some err => reset_error err
      end.
Proof. answers; reflexivity. Qed.

(** Where each phase's failure is caught: a failed wipe in its own [catch],
    a failed kill in the outer one. *)
Lemma reset001_failures_logged (err : thrown) :
  let t := trace (run W (Part001.reset_factory_defaults c) s) in
  (phase_error (startProcess rm_local) t = Some err →
   Event (console_error "[RESET] Failed to wipe local config:" err) tt ∈ t)
  ∧ (phase_error (startProcess rm_backup) t = Some err →
     Event (console_error "[RESET] Failed to wipe R2 backup:" err) tt ∈ t)
  ∧ (phase_error killAllMoltbotProcesses t = Some err →
     Event (console_error "[RESET] Failed:" err) tt ∈ t).
Proof.
  answers; eval_phases; split_and!; intros ?; simplify_eq; in_list.
Qed.

Lemma reset000_calm :
  no_rejection (trace (run W (Part000.reset_factory_defaults c) s)) = true →
  calls (trace (run W (Part000.reset_factory_defaults c) s))
  = [killAllMoltbotProcesses; startProcess rm_local; startProcess rm_backup]
  ∧ result (run W (Part000.reset_factory_defaults c) s) = Fulfilled reset_ok.
Proof. answers; intros; try discriminate; done. Qed.

(** [part_000] starts with the kill, and goes on to the wipes only as far
    as the calls fulfil. *)
Lemma reset000_calls :
  ∃ rest,
    calls (trace (run W (Part000.reset_factory_defaults c) s))
    = killAllMoltbotProcesses :: rest
    ∧ rest `prefix_of` [startProcess rm_local; startProcess rm_backup].
Proof.
  answers; eexists; (split; [reflexivity|]).
  - by exists [].
  - by exists [].
  - by exists [startProcess rm_backup].
  - by exists [startProcess rm_local; startProcess rm_backup].
Qed.

Lemma reset001_result_calm :
  no_rejection (trace (run W (Part001.reset_factory_defaults c) s)) = true →
  result (run W (Part001.reset_factory_defaults c) s) = Fulfilled reset_ok.
Proof. answers; intros; try discriminate; done. Qed.

End ResetRuns.

Lemma calls_app (t1 t2 : list event) :
  calls (t1 ++ t2)%list = (calls t1 ++ calls t2)%list.
Proof. apply omap_app. Qed.

(** Where the kill sits in the call sequence of [part_001]. *)
Lemma kill_is_last (l1 l2 : list call) :
  (l1 ++ killAllMoltbotProcesses :: l2)%list
  = [startProcess rm_local; startProcess rm_backup; killAllMoltbotProcesses] →
  l1 = [startProcess rm_local; startProcess rm_backup].
Proof.
  intros H.
  destruct l1 as [|x1 [|x2 [|x3 l1]]]; simplify_eq/=; try done.
  destruct l1; discriminate.
Qed.

(** ** C1: wipes before termination *)

(** C1 (as amended): in the reset handler of [part_001], every execution
    issues exactly the local wipe, the backup wipe and the termination, in
    this order, each awaited before the next; so whenever the termination
    is issued, both wipe commands have already been issued and their calls
    have settled.  The reset handler of [part_000] issues the termination
    first, and the wipes after it. *)
Theorem reset001_wipes_before_kill (W : World) (c : Context) (s : wstate W) :
  let t := trace (run W (Part001.reset_factory_defaults c) s) in
  let t0 := trace (run W (Part000.reset_factory_defaults c) s) in
  calls t = [startProcess rm_local; startProcess rm_backup; killAllMoltbotProcesses]
  ∧ wipes_settled_before_kill t
  ∧ ∃ rest, calls t0 = killAllMoltbotProcesses :: rest
            ∧ rest `prefix_of` [startProcess rm_local; startProcess rm_backup].
Proof.
  intros t t0. split_and!; [apply reset001_calls | | apply reset000_calls].
  intros before r after Ht.
  pose proof (reset001_calls W c s) as Hc. fold t in Hc.
  rewrite Ht, calls_app in Hc. cbn in Hc.
  apply kill_is_last in Hc. rewrite Hc. split; in_list.
Qed.

(** C1 as stated fails on [part_000]: on a sandbox where every call
    fulfils, its reset handler issues the kill when no wipe has been
    started yet. *)
Lemma reset000_kills_before_wipes :
  ¬ wipes_settled_before_kill
      (trace (run calm (Part000.reset_factory_defaults a_context) tt)).
Proof.
  intros H.
  destruct (H [Event (console_log "[RESET] Initiating factory reset...") tt]
              (Fulfilled tt)
              (List.tl (List.tl (trace (run calm (Part000.reset_factory_defaults a_context) tt))))
              eq_refl) as [Hin _].
  cbn in Hin. by apply elem_of_nil in Hin.
Qed.

(** ** C2: the phases of the reset and their failures *)

(** C2 (as amended): every invocation attempts the three phases, in the
    order wipe-local, wipe-backup, terminate, whatever the earlier phases
    did, and the handler always answers.  A failed wipe is caught in that
    wipe's own [catch] (it is logged there) and leaves the answer
    unchanged.  A failed termination is caught in the handler's outer
    [catch]: the answer is the [ok] one exactly when the termination did
    not fail, and otherwise [status: 'error'] with the message of the
    failure and HTTP status 500. *)
Theorem reset001_phases (W : World) (c : Context) (s : wstate W) :
  let o := run W (Part001.reset_factory_defaults c) s in
  calls (trace o)
  = [startProcess rm_local; startProcess rm_backup; killAllMoltbotProcesses]
  ∧ result o = Fulfilled match phase_error killAllMoltbotProcesses (trace o) with
                         | None => reset_ok
                         | Some err => reset_error err
                         end
  ∧ ∀ err,
      (phase_error (startProcess rm_local) (trace o) = Some err →
       Event (console_error "[RESET] Failed to wipe local config:" err) tt ∈ trace o)
      ∧ (phase_error (startProcess rm_backup) (trace o) = Some err →
         Event (console_error "[RESET] Failed to wipe R2 backup:" err) tt ∈ trace o)
      ∧ (phase_error killAllMoltbotProcesses (trace o) = Some err →
         Event (console_error "[RESET] Failed:" err) tt ∈ trace o).
Proof.
  split_and!; [apply reset001_calls | apply reset001_result |].
  intros err. apply reset001_failures_logged.
Qed.

(** C2, the in-particular case: the local wipe fails, the other two phases
    succeed; both still run and the answer is [ok]. *)
Example reset001_local_wipe_denied :
  let o := run local_wipe_denied (Part001.reset_factory_defaults a_context) tt in
  phase_error (startProcess rm_local) (trace o) = Some (ErrorObj "permission denied")
  ∧ calls (trace o)
    = [startProcess rm_local; startProcess rm_backup; killAllMoltbotProcesses]
  ∧ result o = Fulfilled reset_ok.
Proof. vm_compute. done. Qed.

(** C2 as stated fails for the third phase: with both wipes fulfilled and
    only the termination failing, the answer is not the [ok] one. *)
Lemma reset001_kill_failure_is_an_error :
  let o := run kill_times_out (Part001.reset_factory_defaults a_context) tt in
  phase_error (startProcess rm_local) (trace o) = None
  ∧ phase_error (startProcess rm_backup) (trace o) = None
  ∧ phase_error killAllMoltbotProcesses (trace o) = Some (ErrorObj "kill timed out")
  ∧ result o ≠ Fulfilled reset_ok
  ∧ result o = Fulfilled (Json (JObject [("status", JString "error");
                                         ("message", JString "kill timed out")]) 500).
Proof. vm_compute. repeat split; done. Qed.

(** ** C10: the two versions of the reset handler *)

(** C10 (as amended): on a sandbox where no call of either run rejects, the
    two handlers issue the same three sandbox calls, [part_000] with the
    kill first and [part_001] with the kill last, and return the same [ok]
    response. *)
Theorem reset_versions_agree_when_calm (W : World) (c : Context) (s : wstate W) :
  let o0 := run W (Part000.reset_factory_defaults c) s in
  let o1 := run W (Part001.reset_factory_defaults c) s in
  no_rejection (trace o0) = true →
  no_rejection (trace o1) = true →
  calls (trace o0) = [killAllMoltbotProcesses; startProcess rm_local; startProcess rm_backup]
  ∧ calls (trace o1) = [startProcess rm_local; startProcess rm_backup; killAllMoltbotProcesses]
  ∧ calls (trace o0) ≡ₚ calls (trace o1)
  ∧ result o0 = result o1
  ∧ result o1 = Fulfilled reset_ok.
Proof.
  intros o0 o1 H0 H1.
  destruct (reset000_calm W c s H0) as [Hc0 Hr0].
  pose proof (reset001_calls W c s) as Hc1.
  pose proof (reset001_result_calm W c s H1) as Hr1.
  subst o0 o1. rewrite Hc0, Hc1, Hr0, Hr1.
  repeat split; try done.
  rewrite (Permutation_cons_append [startProcess rm_local; startProcess rm_backup]
             killAllMoltbotProcesses). done.
Qed.

Lemma reset_versions_agree_when_calm_witness :
  let o0 := run calm (Part000.reset_factory_defaults a_context) tt in
  let o1 := run calm (Part001.reset_factory_defaults a_context) tt in
  calls (trace o0) ≡ₚ calls (trace o1) ∧ result o0 = result o1.
Proof.
  pose proof (reset_versions_agree_when_calm calm a_context tt eq_refl eq_refl)
    as (_ & _ & Hp & Hr & _).
  split; [exact Hp | exact Hr].
Defined.

(** C10 as stated fails: on a sandbox where every call fulfils the two
    handlers issue their calls in different orders, and on one that refuses
    the local wipe [part_000] answers with an error where [part_001]
    answers [ok]. *)
Lemma reset_versions_differ :
  calls (trace (run calm (Part000.reset_factory_defaults a_context) tt))
  ≠ calls (trace (run calm (Part001.reset_factory_defaults a_context) tt))
  ∧ result (run local_wipe_denied (Part000.reset_factory_defaults a_context) tt)
    = Fulfilled (reset_error (ErrorObj "permission denied"))
  ∧ result (run local_wipe_denied (Part001.reset_factory_defaults a_context) tt)
    = Fulfilled reset_ok.
Proof. vm_compute. split_and!; [discriminate | reflexivity..]. Qed.

(** ** C9: which requests reach the reset handler *)

(** C9, on the code: the route is registered with [all], so a request for
    [/reset-factory-defaults] reaches the reset handler whatever its method
    is (GET included), and the handler then issues both wipes and the
    kill. *)
Theorem reset_reached_by_every_method (W : World) (s : wstate W) (MOLTBOT_PORT : Z)
    (m : Method) (o q : string) (e : Env) :
  let c := {| req := {| method := m; origin := o; pathname := "/reset-factory-defaults";
                        search := q |};
              env := e |} in
  dispatch (Part001.publicRoutes MOLTBOT_PORT) c = Some (Part001.reset_factory_defaults c)
  ∧ calls (trace (run W (Part001.reset_factory_defaults c) s))
    = [startProcess rm_local; startProcess rm_backup; killAllMoltbotProcesses].
Proof.
  split; [|apply reset001_calls].
  destruct m; reflexivity.
Qed.

(** C9 on a sample: a GET request wipes the sample disk. *)
Example reset_by_get :
  let c := {| req := {| method := GET; origin := "https://worker.example";
                        pathname := "/reset-factory-defaults"; search := "" |};
              env := {| MOLTBOT_GATEWAY_TOKEN := None |} |} in
  match dispatch (Part001.publicRoutes 18789) c with
  | Some handler =>
      result (run disk handler a_disk) = Fulfilled reset_ok
      ∧ final (run disk handler a_disk) !! "/root/.openclaw/openclaw.json" = None
  | None => False
  end.
Proof. vm_compute. done. Qed.

(** ** C5, C6: the status probe *)

(** The status handler answers on every sandbox: nothing is thrown out of
    it. *)
Lemma api_status_answers (W : World) (c : Context) (s : wstate W) :
  ∃ r, result (run W (api_status c) s) = Fulfilled r.
Proof.
  cbn. answer; [|eauto].
  match goal with a : option Process |- _ => destruct a end; answers; eauto.
Qed.

(** C5: when the lookup finds no gateway process, the handler answers
    [{ok: false, status: 'not_running'}] at once: the lookup is the only
    operation of the run, so no port is probed. *)
Theorem status_not_running (W : World) (c : Context) (s : wstate W) :
  (respond W (Await findExistingMoltbotProcess) s).1 = Fulfilled None →
  let o := run W (api_status c) s in
  result o = Fulfilled not_running
  ∧ trace o = [Event (Await findExistingMoltbotProcess) (Fulfilled None)]
  ∧ ∀ p port mode timeout, waitForPort p port mode timeout ∉ calls (trace o).
Proof.
  intros H. cbn in *.
  destruct (respond W (Await findExistingMoltbotProcess) s) as [r s1].
  cbn in *. subst r. cbn. repeat split; try done.
  by intros p port mode timeout ?%list_elem_of_singleton.
Qed.

Lemma status_not_running_witness :
  result (run calm (api_status a_context) tt) = Fulfilled not_running
  ∧ calls (trace (run calm (api_status a_context) tt)) = [findExistingMoltbotProcess].
Proof.
  destruct (status_not_running calm a_context tt eq_refl) as (Hr & Ht & _).
  split; [exact Hr | rewrite Ht; reflexivity].
Defined.

(** C6: when a gateway process is found and waiting for its port rejects
    (timeout or any other error), the handler answers
    [{ok: false, status: 'not_responding', processId}]; it does not throw. *)
Theorem status_not_responding (W : World) (c : Context) (s : wstate W)
    (process : Process) (err : thrown) :
  let found := respond W (Await findExistingMoltbotProcess) s in
  found.1 = Fulfilled (Some process) →
  (respond W (Await (waitForPort process 18789 "tcp" 5000)) found.2).1 = Rejected err →
  let o := run W (api_status c) s in
  result o = Fulfilled (not_responding process)
  ∧ calls (trace o)
    = [findExistingMoltbotProcess; waitForPort process 18789 "tcp" 5000].
Proof.
  intros found Hfound Hwait. subst found. cbn in *.
  destruct (respond W (Await findExistingMoltbotProcess) s) as [r s1].
  cbn in *. subst r. cbn.
  destruct (respond W (Await (waitForPort process 18789 "tcp" 5000)) s1) as [r s2].
  cbn in *. subst r. done.
Qed.

Lemma status_not_responding_witness :
  result (run gateway_stuck (api_status a_context) tt)
  = Fulfilled (c_json (JObject [("ok", JBool false);
                                ("status", JString "not_responding");
                                ("processId", JString "gw-1")])).
Proof.
  exact (proj1 (status_not_responding gateway_stuck a_context tt
                  {| id := "gw-1" |} (ErrorObj "timed out waiting for port 18789")
                  eq_refl eq_refl)).
Defined.

(** ** C3, C4: the diagnostics snapshot *)

(** The handler reads the token only through [envConfig]. *)
Lemma diagnose_same_flag (c1 c2 : Context) :
  truthy (MOLTBOT_GATEWAY_TOKEN (env c1)) = truthy (MOLTBOT_GATEWAY_TOKEN (env c2)) →
  Part001.diagnose c1 = Part001.diagnose c2.
Proof.
  intros H. unfold Part001.diagnose, Part001.envConfig. rewrite H. reflexivity.
Qed.

(** Every string of the snapshot is text the sandbox handed over, or one of
    the constants of the source. *)
Lemma diagnose_strings (W : World) (c : Context) (s : wstate W) (r : Response) (str : string) :
  result (run W (Part001.diagnose c) s) = Fulfilled r →
  str ∈ response_strings r →
  str ∈ sandbox_texts (trace (run W (Part001.diagnose c) s))
  ∨ str ∈ diagnose_constants.
Proof.
  unfold Part001.diagnose, Part001.envConfig, diagnose_constants.
  destruct (truthy (MOLTBOT_GATEWAY_TOKEN (env c)));
    answers; intros [= <-]; cbn;
    rewrite ?elem_of_cons, ?elem_of_nil; intros Hin;
    repeat match goal with
           | e : thrown |- _ => destruct e; cbn in *
           end;
    rewrite ?elem_of_cons, ?elem_of_nil; tauto.
Qed.

(** C3 (as amended): run the diagnose handler twice from the same sandbox
    state, under two contexts (two values of the gateway token, say).
    Both runs issue the same operations with the same answers and leave
    the sandbox in the same state.  The two responses are equal once the
    [envConfig] field is taken out; that field is there exactly when no
    call rejected, and is then one of two fixed strings chosen by whether
    the token is set and non-empty; with two tokens that are both set (or
    both unset) the responses are equal.  Every string of a response is a
    text the sandbox itself handed over in that run (a stdout or an error
    message) or a constant of the source; so a token that occurs in none
    of these occurs nowhere in the response.  The sandbox's texts
    themselves are returned as they are. *)
Theorem diagnose_token_only_as_flag (W : World) (s : wstate W) (c1 c2 : Context) :
  let o1 := run W (Part001.diagnose c1) s in
  let o2 := run W (Part001.diagnose c2) s in
  trace o1 = trace o2
  ∧ final o1 = final o2
  ∧ map_settled (without_field "envConfig") (result o1)
    = map_settled (without_field "envConfig") (result o2)
  ∧ (∃ r1, result o1 = Fulfilled r1
           ∧ field "envConfig" r1
             = (if no_rejection (trace o1)
                then Some (JString (if truthy (MOLTBOT_GATEWAY_TOKEN (env c1))
                                    then "Has TOKEN env" else "No TOKEN env"))
                else None)
           ∧ (∀ str, str ∈ response_strings r1 →
                     str ∈ sandbox_texts (trace o1) ∨ str ∈ diagnose_constants)
           ∧ (∀ token,
                (∀ txt, txt ∈ sandbox_texts (trace o1) → occurs token txt = false) →
                (∀ k, k ∈ diagnose_constants → occurs token k = false) →
                ∀ str, str ∈ response_strings r1 → occurs token str = false))
  ∧ (truthy (MOLTBOT_GATEWAY_TOKEN (env c1)) = truthy (MOLTBOT_GATEWAY_TOKEN (env c2)) →
     result o1 = result o2).
Proof.
  cbn zeta. split_and!.
  - answers; reflexivity.
  - answers; reflexivity.
  - answers; reflexivity.
  - assert (∃ r1, result (run W (Part001.diagnose c1) s) = Fulfilled r1
                  ∧ field "envConfig" r1
                    = (if no_rejection (trace (run W (Part001.diagnose c1) s))
                       then Some (JString (Part001.envConfig (env c1)))
                       else None)) as (r1 & Hr & Hf).
    { answers; eexists; (split; [reflexivity|]); reflexivity. }
    exists r1. split_and!; [done..| |].
    + intros str. by apply diagnose_strings.
    + intros token Htexts Hconsts str Hstr.
      destruct (diagnose_strings W c1 s r1 str Hr Hstr); auto.
  - intros H. by rewrite (diagnose_same_flag c1 c2 H).
Qed.

Lemma diagnose_token_only_as_flag_witness :
  Forall (λ str, occurs "5ec2e7" str = false)
         match result (run config_absent (Part001.diagnose a_context) tt) with
         | Fulfilled r => response_strings r
         | Rejected _ => []
         end.
Proof.
  apply Forall_forall.
  destruct (diagnose_token_only_as_flag config_absent tt a_context a_context)
    as (_ & _ & _ & (r1 & Hr & _ & _ & Hclean) & _).
  cbn zeta in Hr. rewrite Hr. apply Hclean.
  - intros txt Hin. vm_compute in Hin.
    repeat (apply elem_of_cons in Hin as [->|Hin]); try reflexivity.
    by apply elem_of_nil in Hin.
  - intros k Hin. unfold diagnose_constants in Hin.
    repeat (apply elem_of_cons in Hin as [->|Hin]); try reflexivity.
    by apply elem_of_nil in Hin.
Defined.

(** C3 on a sample: a long random token and a short one give the same
    snapshot. *)
Example diagnose_two_tokens :
  result (run config_absent
            (Part001.diagnose {| req := req a_context;
                                 env := {| MOLTBOT_GATEWAY_TOKEN := Some "b1946ac92492d2347c6235b4d2611184" |} |}) tt)
  = result (run config_absent
              (Part001.diagnose {| req := req a_context;
                                   env := {| MOLTBOT_GATEWAY_TOKEN := Some "x" |} |}) tt).
Proof. reflexivity. Qed.

(** C3 as stated fails: the [config] and [env] fields are what the sandbox
    printed.  On a sandbox whose environment holds the token, the [env]
    field of the snapshot contains the token's literal value. *)
Lemma diagnose_returns_a_printed_token :
  MOLTBOT_GATEWAY_TOKEN (env a_context) = Some "5ec2e7"
  ∧ match result (run leaky (Part001.diagnose a_context) tt) with
    | Fulfilled r =>
        field "env" r = Some (JString "MOLTBOT_GATEWAY_TOKEN=5ec2e7")
        ∧ existsb (occurs "5ec2e7") (response_strings r) = true
    | Rejected _ => False
    end.
Proof. vm_compute. done. Qed.

(** C4 (as amended): the four reads run one after the other under a single
    [try].  When no sandbox call rejects, all four are attempted and the
    snapshot carries the stdout of each, whatever the commands printed (a
    command that fails inside the sandbox, such as [cat] on an absent
    file, still has logs).  When a call rejects, it is the last operation
    of the run: the later reads are not attempted, and the answer is
    [{error: message}] with HTTP status 500. *)
Theorem diagnose_reads (W : World) (c : Context) (s : wstate W) :
  let o := run W (Part001.diagnose c) s in
  (no_rejection (trace o) = true →
   ∃ p1 l1 p2 l2 p3 l3 p4 l4,
     trace o = [Event (Await cat_config) (Fulfilled p1);
                Event (Await (getLogs p1)) (Fulfilled l1);
                Event (Await dump_env) (Fulfilled p2);
                Event (Await (getLogs p2)) (Fulfilled l2);
                Event (Await ls_backup) (Fulfilled p3);
                Event (Await (getLogs p3)) (Fulfilled l3);
                Event (Await ls_local) (Fulfilled p4);
                Event (Await (getLogs p4)) (Fulfilled l4)]
     ∧ result o = Fulfilled (snapshot l1 l2 l3 l4 (env c)))
  ∧ (no_rejection (trace o) = false →
     ∃ before ev err,
       trace o = (before ++ [ev])%list
       ∧ no_rejection before = true
       ∧ rejection ev = Some err
       ∧ result o = Fulfilled (Json (JObject [("error", JString (error_message err))]) 500)).
Proof.
  cbn. split.
  - answers; intros; try discriminate.
    do 8 eexists. split; reflexivity.
  - answers; intros; try discriminate;
      match goal with
      | |- ∃ before ev err, (?l = _ ∧ _) =>
          exists (removelast l), (List.last l (Event (console_log "") tt))
      end; cbn; eexists; split_and!; reflexivity.
Qed.

Lemma diagnose_reads_witness :
  no_rejection (trace (run config_absent (Part001.diagnose a_context) tt)) = true
  ∧ ∃ l1 l2 l3 l4,
      result (run config_absent (Part001.diagnose a_context) tt)
      = Fulfilled (snapshot l1 l2 l3 l4 (env a_context)).
Proof.
  split; [reflexivity|].
  destruct (proj1 (diagnose_reads config_absent a_context tt) eq_refl)
    as (p1 & l1 & p2 & l2 & p3 & l3 & p4 & l4 & Ht & Hr).
  exists l1, l2, l3, l4. exact Hr.
Defined.

(** C4 on a sample: the config file is absent, [cat] prints nothing on
    stdout, and the three other reads are returned all the same. *)
Example diagnose_config_absent :
  result (run config_absent (Part001.diagnose a_context) tt)
  = Fulfilled
      (c_json (JObject [("config", JString "");
                        ("env", JString "out of: env");
                        ("lsR2", JString "out of: ls -la /data/moltbot");
                        ("lsLocal", JString "out of: ls -la /root/.openclaw");
                        ("envConfig", JString "Has TOKEN env")])).
Proof. reflexivity. Qed.

(** C4 as stated fails: when starting the first read rejects, no other read
    is attempted and none of the four results is in the response. *)
Lemma diagnose_stops_at_first_throw :
  let o := run config_read_throws (Part001.diagnose a_context) tt in
  calls (trace o) = [cat_config]
  ∧ (dump_env ∉ calls (trace o))
  ∧ (ls_backup ∉ calls (trace o))
  ∧ (ls_local ∉ calls (trace o))
  ∧ result o = Fulfilled (Json (JObject [("error", JString "sandbox unreachable")]) 500).
Proof. cbn. split_and!; try done; by intros ?%list_elem_of_singleton. Qed.

(** ** C7, C8: what a reset does to storage *)

Lemma rm_rf_lookup (targets : list string) (files : gmap string string) (p : string) :
  rm_rf targets files !! p = if wiped_by targets p then None else files !! p.
Proof.
  unfold rm_rf. rewrite map_lookup_filter.
  destruct (files !! p) as [x|]; cbn; [|by destruct (wiped_by targets p)].
  destruct (wiped_by targets p); [by rewrite option_guard_False | by rewrite option_guard_True].
Qed.

Lemma wiped_by_app (l1 l2 : list string) (p : string) :
  wiped_by (l1 ++ l2) p = wiped_by l1 p || wiped_by l2 p.
Proof. apply existsb_app. Qed.

Lemma rm_rf_app (l1 l2 : list string) (files : gmap string string) :
  rm_rf l2 (rm_rf l1 files) = rm_rf (l1 ++ l2) files.
Proof.
  apply map_eq. intros p. rewrite !rm_rf_lookup, wiped_by_app.
  by destruct (wiped_by l1 p), (wiped_by l2 p).
Qed.



Section Storage.
(** A sandbox, with the storage its state holds. *)
Variable W : World.
Variable files : wstate W → gmap string string.

(** Starting [rm -rf] on plain words is atomic on storage: the call
    fulfils and the operands are removed, or it rejects and nothing is. *)
Hypothesis rm_rf_atomic : ∀ cmd targets s,
  parse_rm_rf cmd = Some targets →
  forallb plain_word targets = true →
  let rs := respond W (Await (startProcess cmd)) s in
  files rs.2 = if is_rejected rs.1 then files s else rm_rf targets (files s).

(** Terminating the gateway processes and writing to the console leave
    storage as it is. *)
Hypothesis kill_keeps_files : ∀ s,
  files (respond W (Await killAllMoltbotProcesses) s).2 = files s.
Hypothesis log_keeps_files : ∀ msg s,
  files (respond W (console_log msg) s).2 = files s.
Hypothesis log_error_keeps_files : ∀ msg e s,
  files (respond W (console_error msg e) s).2 = files s.

Lemma files_after_rm cmd targets s r s' :
  parse_rm_rf cmd = Some targets →
  forallb plain_word targets = true →
  respond W (Await (startProcess cmd)) s = (r, s') →
  files s' = if is_rejected r then files s else rm_rf targets (files s).
Proof. intros Hp Hw E. pose proof (rm_rf_atomic cmd targets s Hp Hw) as H. by rewrite E in H. Qed.

Lemma files_after_kill s r s' :
  respond W (Await killAllMoltbotProcesses) s = (r, s') → files s' = files s.
Proof. intros E. pose proof (kill_keeps_files s) as H. by rewrite E in H. Qed.

Lemma files_after_log msg s r s' :
  respond W (console_log msg) s = (r, s') → files s' = files s.
Proof. intros E. pose proof (log_keeps_files msg s) as H. by rewrite E in H. Qed.

Lemma files_after_log_error msg e s r s' :
  respond W (console_error msg e) s = (r, s') → files s' = files s.
Proof. intros E. pose proof (log_error_keeps_files msg e s) as H. by rewrite E in H. Qed.

Ltac follow_files :=
  repeat match goal with
  | E : respond W (console_log _) _ = _ |- _ => apply files_after_log in E
  | E : respond W (console_error _ _) _ = _ |- _ => apply files_after_log_error in E
  | E : respond W (Await killAllMoltbotProcesses) _ = _ |- _ => apply files_after_kill in E
  | E : respond W (Await (startProcess rm_local)) _ = _ |- _ =>
      apply (files_after_rm rm_local local_targets) in E; [|reflexivity..]
  | E : respond W (Await (startProcess rm_backup)) _ = _ |- _ =>
      apply (files_after_rm rm_backup backup_targets) in E; [|reflexivity..]
  end.

(** Storage after a reset: each wipe that fulfilled has removed its
    targets, and nothing else happened. *)
Lemma reset001_storage (c : Context) (s : wstate W) :
  let o := run W (Part001.reset_factory_defaults c) s in
  files (final o)
  = wipe_effect (phase_error (startProcess rm_backup) (trace o)) backup_targets
      (wipe_effect (phase_error (startProcess rm_local) (trace o)) local_targets
         (files s)).
Proof.
  answers; follow_files; cbn in *; eval_phases; cbn; congruence.
Qed.

(** C7: the only commands a reset starts are the two [rm -rf] lines of
    the source; their operands are exactly the declared paths, all plain
    words (nothing for the shell to expand).  A path that is none of the
    declared ones and lies below none of them holds after the reset what
    it held before; every path is either left as it was or is a declared
    path (or below one) and gone; and when both wipes fulfil, storage is
    the storage before minus the declared paths and what lies below
    them. *)
Theorem reset001_wipes_declared_paths_only (c : Context) (s : wstate W) :
  let o := run W (Part001.reset_factory_defaults c) s in
  (∀ cmd, startProcess cmd ∈ calls (trace o) → cmd = rm_local ∨ cmd = rm_backup)
  ∧ parse_rm_rf rm_local = Some local_targets
  ∧ parse_rm_rf rm_backup = Some backup_targets
  ∧ forallb plain_word wipe_targets = true
  ∧ (∀ p, wiped_by wipe_targets p = false → files (final o) !! p = files s !! p)
  ∧ (∀ p, files (final o) !! p = files s !! p
          ∨ (wiped_by wipe_targets p = true ∧ files (final o) !! p = None))
  ∧ (phase_error (startProcess rm_local) (trace o) = None →
     phase_error (startProcess rm_backup) (trace o) = None →
     files (final o) = rm_rf wipe_targets (files s)).
Proof.
  intros o.
  pose proof (reset001_storage c s) as Hfiles. fold o in Hfiles. cbn zeta in Hfiles.
  assert (Hframe : ∀ p, files (final o) !! p = files s !! p
            ∨ (wiped_by wipe_targets p = true ∧ files (final o) !! p = None)).
  { intros p. rewrite Hfiles. unfold wipe_targets. rewrite wiped_by_app.
    destruct (phase_error (startProcess rm_backup) (trace o)),
             (phase_error (startProcess rm_local) (trace o));
      unfold wipe_effect; rewrite ?rm_rf_lookup;
      destruct (wiped_by local_targets p), (wiped_by backup_targets p); auto. }
  split_and!.
  - intros cmd. subst o. rewrite reset001_calls.
    rewrite !elem_of_cons, elem_of_nil. intros [?|[?|[?|[]]]]; simplify_eq; auto.
  - reflexivity.
  - reflexivity.
  - reflexivity.
  - intros p Hp. destruct (Hframe p) as [?|[? _]]; [done | congruence].
  - exact Hframe.
  - intros H1 H2. rewrite Hfiles, H1, H2. cbn. apply rm_rf_app.
Qed.

Section Calm.
(** The sandbox at rest: starting a process and terminating the gateway
    processes do not reject. *)
Hypothesis start_fulfils : ∀ cmd s,
  is_rejected (respond W (Await (startProcess cmd)) s).1 = false.
Hypothesis kill_fulfils : ∀ s,
  is_rejected (respond W (Await killAllMoltbotProcesses) s).1 = false.

Ltac no_reject :=
  match goal with
  | E : respond W (Await (startProcess ?cmd)) ?s = (Rejected _, _) |- _ =>
      pose proof (start_fulfils cmd s) as X; rewrite E in X; discriminate X
  | E : respond W (Await killAllMoltbotProcesses) ?s = (Rejected _, _) |- _ =>
      pose proof (kill_fulfils s) as X; rewrite E in X; discriminate X
  end.

Lemma reset001_calm (c : Context) (s : wstate W) :
  let t := trace (run W (Part001.reset_factory_defaults c) s) in
  phase_error (startProcess rm_local) t = None
  ∧ phase_error (startProcess rm_backup) t = None
  ∧ phase_error killAllMoltbotProcesses t = None.
Proof. answers; try no_reject. eval_phases. done. Qed.

End Calm.
End Storage.

(** The disk sandbox meets the assumptions on storage. *)
Lemma disk_rm_rf_atomic (cmd : string) (targets : list string) (s : wstate disk) :
  parse_rm_rf cmd = Some targets →
  forallb plain_word targets = true →
  let rs := respond disk (Await (startProcess cmd)) s in
  rs.2 = if is_rejected rs.1 then s else rm_rf targets s.
Proof. intros Hp Hw. cbn. by rewrite Hp, Hw. Qed.

Lemma reset001_wipes_declared_paths_only_witness :
  let o := run disk (Part001.reset_factory_defaults a_context) a_disk in
  final o !! "/root/notes.txt" = Some "remember"
  ∧ final o !! "/root/.openclawrc" = Some "keep"
  ∧ final o !! "/data/moltbot/skills/a.md" = Some "skill"
  ∧ final o = rm_rf wipe_targets a_disk.
Proof.
  destruct (reset001_wipes_declared_paths_only disk (λ files, files)
              disk_rm_rf_atomic (λ _, eq_refl) (λ _ _, eq_refl) (λ _ _ _, eq_refl)
              a_context a_disk)
    as (_ & _ & _ & _ & Hframe & _ & Hexact).
  cbn zeta. split_and!.
  - etrans; [exact (Hframe "/root/notes.txt" eq_refl) | reflexivity].
  - etrans; [exact (Hframe "/root/.openclawrc" eq_refl) | reflexivity].
  - etrans; [exact (Hframe "/data/moltbot/skills/a.md" eq_refl) | reflexivity].
  - exact (Hexact eq_refl eq_refl).
Defined.



(** A reset of the sample disk, evaluated. *)
Example reset001_on_a_disk :
  map_to_list (final (run disk (Part001.reset_factory_defaults a_context) a_disk))
  = [("/root/notes.txt", "remember"); ("/root/.openclawrc", "keep");
     ("/data/moltbot/skills/a.md", "skill")].
Proof. vm_compute. reflexivity. Qed.


(** * Further properties of the handlers *)


(** ** The status probe, remaining cases *)

(** X1: when a gateway process is found and its port answers within the
    wait, the handler reports [{ok: true, status: 'running', processId}]
    after exactly the lookup and one wait on port 18789. *)
Theorem status_running (W : World) (c : Context) (s : wstate W) (process : Process) :
  let found := respond W (Await findExistingMoltbotProcess) s in
  found.1 = Fulfilled (Some process) →
  (respond W (Await (waitForPort process 18789 "tcp" 5000)) found.2).1 = Fulfilled tt →
  let o := run W (api_status c) s in
  result o = Fulfilled (c_json (JObject [("ok", JBool true);
                                         ("status", JString "running");
                                         ("processId", JString (id process))]))
  ∧ calls (trace o)
    = [findExistingMoltbotProcess; waitForPort process 18789 "tcp" 5000].
Proof.
  intros found Hfound Hwait. subst found. cbn in *.
  destruct (respond W (Await findExistingMoltbotProcess) s) as [r s1].
  cbn in *. subst r. cbn.
  destruct (respond W (Await (waitForPort process 18789 "tcp" 5000)) s1) as [r s2].
  cbn in *. subst r. done.
Qed.

Lemma status_running_witness :
  result (run (scripted (answer_calls (λ c,
            match c with
            | findExistingMoltbotProcess => Fulfilled (Some {| id := "gw-7" |})
            | c => calm_call c
            end))) (api_status a_context) tt)
  = Fulfilled (c_json (JObject [("ok", JBool true);
                                ("status", JString "running");
                                ("processId", JString "gw-7")])).
Proof.
  exact (proj1 (status_running
                  (scripted (answer_calls (λ c,
                     match c with
                     | findExistingMoltbotProcess => Fulfilled (Some {| id := "gw-7" |})
                     | c => calm_call c
                     end)))
                  a_context tt {| id := "gw-7" |} eq_refl eq_refl)).
Defined.

(** X2: when the lookup itself rejects, the handler still answers with
    HTTP status 200: [{ok: false, status: 'error', error}], where [error]
    is the message of an [Error] and ['Unknown error'] for any other thrown
    value; the port is not probed. *)
Theorem status_lookup_error (W : World) (c : Context) (s : wstate W) (err : thrown) :
  (respond W (Await findExistingMoltbotProcess) s).1 = Rejected err →
  let o := run W (api_status c) s in
  result o = Fulfilled (Json (JObject [("ok", JBool false);
                                       ("status", JString "error");
                                       ("error", JString match err with
                                                         | ErrorObj message => message
                                                         | NonError _ => "Unknown error"
                                                         end)]) 200)
  ∧ calls (trace o) = [findExistingMoltbotProcess].
Proof.
  intros H. cbn in *.
  destruct (respond W (Await findExistingMoltbotProcess) s) as [r s1].
  cbn in *. subst r. cbn. by destruct err.
Qed.

Lemma status_lookup_error_witness :
  result (run (scripted (answer_calls (λ c,
            match c with
            | findExistingMoltbotProcess => Rejected (NonError "503")
            | c => calm_call c
            end))) (api_status a_context) tt)
  = Fulfilled (Json (JObject [("ok", JBool false);
                              ("status", JString "error");
                              ("error", JString "Unknown error")]) 200).
Proof.
  exact (proj1 (status_lookup_error
                  (scripted (answer_calls (λ c,
                     match c with
                     | findExistingMoltbotProcess => Rejected (NonError "503")
                     | c => calm_call c
                     end)))
                  a_context tt (NonError "503") eq_refl)).
Defined.


(** ** The reset handler of [part_000] *)

(** X4: the reset handler of [part_000] stops at the first call that
    rejects.  With no rejection it issues the kill and both wipes and
    answers [ok]; otherwise the rejected call is its last sandbox call, the
    failure is logged once by the outer [catch], and the answer is
    [{status: 'error', message}] with HTTP status 500, carrying the message
    of that rejection. *)
Theorem reset000_stops_at_first_failure (W : World) (c : Context) (s : wstate W) :
  let o := run W (Part000.reset_factory_defaults c) s in
  (no_rejection (trace o) = true →
   calls (trace o)
   = [killAllMoltbotProcesses; startProcess rm_local; startProcess rm_backup]
   ∧ result o = Fulfilled reset_ok)
  ∧ (no_rejection (trace o) = false →
     ∃ before ev err,
       trace o = (before ++ [ev; Event (console_error "[RESET] Failed:" err) tt])%list
       ∧ no_rejection before = true
       ∧ rejection ev = Some err
       ∧ result o = Fulfilled (Json (JObject [("status", JString "error");
                                              ("message", JString (error_message err))]) 500)).
Proof.
  cbn. split.
  - answers; intros; try discriminate; done.
  - answers; intros; try discriminate;
      match goal with
      | |- ∃ before ev err, (?l = _ ∧ _) =>
          exists (removelast (removelast l)),
                 (List.last (removelast l) (Event (console_log "") tt))
      end; cbn; eexists; split_and!; reflexivity.
Qed.

Lemma reset000_stops_at_first_failure_witness :
  no_rejection (trace (run kill_times_out (Part000.reset_factory_defaults a_context) tt))
  = false
  ∧ ∃ err,
      result (run kill_times_out (Part000.reset_factory_defaults a_context) tt)
      = Fulfilled (Json (JObject [("status", JString "error");
                                  ("message", JString (error_message err))]) 500).
Proof.
  split; [reflexivity|].
  destruct (proj2 (reset000_stops_at_first_failure kill_times_out a_context tt) eq_refl)
    as (before & ev & err & _ & _ & _ & Hr).
  exists err. exact Hr.
Defined.

Section StorageOfBoth.
(** The assumptions on the storage of a sandbox, as before. *)
Variable W : World.
Variable files : wstate W → gmap string string.

Hypothesis rm_rf_atomic : ∀ cmd targets s,
  parse_rm_rf cmd = Some targets →
  forallb plain_word targets = true →
  let rs := respond W (Await (startProcess cmd)) s in
  files rs.2 = if is_rejected rs.1 then files s else rm_rf targets (files s).
Hypothesis kill_keeps_files : ∀ s,
  files (respond W (Await killAllMoltbotProcesses) s).2 = files s.
Hypothesis log_keeps_files : ∀ msg s,
  files (respond W (console_log msg) s).2 = files s.
Hypothesis log_error_keeps_files : ∀ msg e s,
  files (respond W (console_error msg e) s).2 = files s.

Ltac follow_files000 :=
  repeat match goal with
  | E : respond W (console_log _) _ = _ |- _ =>
      apply (files_after_log W files log_keeps_files) in E
  | E : respond W (console_error _ _) _ = _ |- _ =>
      apply (files_after_log_error W files log_error_keeps_files) in E
  | E : respond W (Await killAllMoltbotProcesses) _ = _ |- _ =>
      apply (files_after_kill W files kill_keeps_files) in E
  | E : respond W (Await (startProcess rm_local)) _ = _ |- _ =>
      apply (files_after_rm W files rm_rf_atomic rm_local local_targets) in E;
      [|reflexivity..]
  | E : respond W (Await (startProcess rm_backup)) _ = _ |- _ =>
      apply (files_after_rm W files rm_rf_atomic rm_backup backup_targets) in E;
      [|reflexivity..]
  end.

(** Storage after a reset of [part_000]: nothing is wiped unless the kill
    fulfilled, and the backup only if the local wipe fulfilled as well. *)
Lemma reset000_storage (c : Context) (s : wstate W) :
  let o := run W (Part000.reset_factory_defaults c) s in
  files (final o)
  = match phase_error killAllMoltbotProcesses (trace o),
          phase_error (startProcess rm_local) (trace o) with
    | None, None =>
        wipe_effect (phase_error (startProcess rm_backup) (trace o)) backup_targets
          (rm_rf local_targets (files s))
    | _, _ => files s
    end.
Proof.
  answers; follow_files000; cbn in *; eval_phases; cbn; congruence.
Qed.

(** X5: a failure in [part_000] stops the wipes that follow it.  A failed
    kill leaves storage untouched: the answer is the error one, no wipe is
    started, and every path holds what it held before.  A failed local
    wipe leaves storage untouched as well, the backup wipe is not started.
    And whatever fails, a path that is not a declared one and lies below
    none is left as it was. *)
Theorem reset000_failure_keeps_storage (c : Context) (s : wstate W) :
  let o := run W (Part000.reset_factory_defaults c) s in
  (∀ err, phase_error killAllMoltbotProcesses (trace o) = Some err →
          files (final o) = files s
          ∧ calls (trace o) = [killAllMoltbotProcesses]
          ∧ result o = Fulfilled (reset_error err))
  ∧ (∀ err, phase_error (startProcess rm_local) (trace o) = Some err →
            files (final o) = files s
            ∧ calls (trace o) = [killAllMoltbotProcesses; startProcess rm_local]
            ∧ result o = Fulfilled (reset_error err))
  ∧ (∀ p, wiped_by wipe_targets p = false → files (final o) !! p = files s !! p).
Proof.
  intros o. split_and!.
  - intros err Herr. split.
    + subst o. rewrite reset000_storage. cbn zeta. by rewrite Herr.
    + subst o. revert Herr. answers; eval_phases; intros; simplify_eq; done.
  - intros err Herr. split.
    + subst o. rewrite reset000_storage. cbn zeta. rewrite Herr.
      by destruct (phase_error killAllMoltbotProcesses _).
    + subst o. revert Herr. answers; eval_phases; intros; simplify_eq; done.
  - intros p Hp. subst o. rewrite reset000_storage. cbn zeta.
    unfold wipe_targets in Hp. rewrite wiped_by_app in Hp.
    apply orb_false_iff in Hp as [Hl Hb].
    destruct (phase_error killAllMoltbotProcesses _); [done|].
    destruct (phase_error (startProcess rm_local) _); [done|].
    destruct (phase_error (startProcess rm_backup) _); unfold wipe_effect;
      rewrite ?rm_rf_lookup, ?Hl, ?Hb; done.
Qed.

(** X12: in [part_001] the wipes do not wait for the kill to succeed: when
    both wipes fulfilled and the kill then fails, the answer is the error
    one and storage is already the storage before minus the declared paths
    and what lies below them. *)
Theorem reset001_wipes_despite_kill_failure (c : Context) (s : wstate W) (err : thrown) :
  let o := run W (Part001.reset_factory_defaults c) s in
  phase_error (startProcess rm_local) (trace o) = None →
  phase_error (startProcess rm_backup) (trace o) = None →
  phase_error killAllMoltbotProcesses (trace o) = Some err →
  result o = Fulfilled (reset_error err)
  ∧ files (final o) = rm_rf wipe_targets (files s).
Proof.
  intros o HL HB HK. split.
  - subst o. by rewrite reset001_result, HK.
  - pose proof (reset001_storage W files rm_rf_atomic kill_keeps_files
                  log_keeps_files log_error_keeps_files c s) as S1.
    cbn zeta in S1. fold o in S1. rewrite S1, HL, HB. cbn [wipe_effect]. apply rm_rf_app.
Qed.

Section Calm000.
Hypothesis start_fulfils : ∀ cmd s,
  is_rejected (respond W (Await (startProcess cmd)) s).1 = false.
Hypothesis kill_fulfils : ∀ s,
  is_rejected (respond W (Await killAllMoltbotProcesses) s).1 = false.

Ltac no_reject000 :=
  match goal with
  | E : respond W (Await (startProcess ?cmd)) ?s = (Rejected _, _) |- _ =>
      pose proof (start_fulfils cmd s) as X; rewrite E in X; discriminate X
  | E : respond W (Await killAllMoltbotProcesses) ?s = (Rejected _, _) |- _ =>
      pose proof (kill_fulfils s) as X; rewrite E in X; discriminate X
  end.

Lemma reset000_at_rest (c : Context) (s : wstate W) :
  let t := trace (run W (Part000.reset_factory_defaults c) s) in
  phase_error (startProcess rm_local) t = None
  ∧ phase_error (startProcess rm_backup) t = None
  ∧ phase_error killAllMoltbotProcesses t = None.
Proof. answers; try no_reject000. eval_phases. done. Qed.

(** X6: on a sandbox at rest the two reset handlers, for all the
    difference in their order, leave the same storage behind: the storage
    before minus the declared paths and what lies below them. *)
Theorem reset_versions_same_storage (c : Context) (s : wstate W) :
  files (final (run W (Part000.reset_factory_defaults c) s))
  = rm_rf wipe_targets (files s)
  ∧ files (final (run W (Part001.reset_factory_defaults c) s))
    = rm_rf wipe_targets (files s).
Proof.
  split.
  - pose proof (reset000_at_rest c s) as (L & B & K).
    pose proof (reset000_storage c s) as S0.
    cbn zeta in *. rewrite S0, L, B, K. cbn [wipe_effect]. apply rm_rf_app.
  - pose proof (reset001_calm W start_fulfils kill_fulfils c s) as (L & B & K).
    pose proof (reset001_storage W files rm_rf_atomic kill_keeps_files
                  log_keeps_files log_error_keeps_files c s) as S1.
    cbn zeta in *. rewrite S1, L, B. cbn [wipe_effect]. apply rm_rf_app.
Qed.
End Calm000.
End StorageOfBoth.

Lemma disk_kill_fails_rm_rf_atomic (cmd : string) (targets : list string)
    (s : wstate disk_kill_fails) :
  parse_rm_rf cmd = Some targets →
  forallb plain_word targets = true →
  let rs := respond disk_kill_fails (Await (startProcess cmd)) s in
  rs.2 = if is_rejected rs.1 then s else rm_rf targets s.
Proof. intros Hp Hw. cbn. by rewrite Hp, Hw. Qed.

Lemma reset000_failure_keeps_storage_witness :
  final (run disk_kill_fails (Part000.reset_factory_defaults a_context) a_disk) = a_disk
  ∧ result (run disk_kill_fails (Part000.reset_factory_defaults a_context) a_disk)
    = Fulfilled (reset_error (ErrorObj "kill timed out")).
Proof.
  destruct (reset000_failure_keeps_storage disk_kill_fails (λ files, files)
              disk_kill_fails_rm_rf_atomic (λ _, eq_refl) (λ _ _, eq_refl) (λ _ _ _, eq_refl)
              a_context a_disk) as (Hkill & _ & _).
  destruct (Hkill (ErrorObj "kill timed out") eq_refl) as (Hf & _ & Hr).
  split; [exact Hf | exact Hr].
Defined.

Lemma reset_versions_same_storage_witness :
  final (run disk (Part000.reset_factory_defaults a_context) a_disk)
  = final (run disk (Part001.reset_factory_defaults a_context) a_disk).
Proof.
  destruct (reset_versions_same_storage disk (λ files, files)
              disk_rm_rf_atomic (λ _, eq_refl) (λ _ _, eq_refl) (λ _ _ _, eq_refl)
              (λ _ _, eq_refl) (λ _, eq_refl) a_context a_disk) as [H0 H1].
  etrans; [exact H0 | symmetry; exact H1].
Defined.

Lemma reset001_wipes_despite_kill_failure_witness :
  final (run disk_kill_fails (Part001.reset_factory_defaults a_context) a_disk)
  = rm_rf wipe_targets a_disk
  ∧ result (run disk_kill_fails (Part001.reset_factory_defaults a_context) a_disk)
    = Fulfilled (reset_error (ErrorObj "kill timed out")).
Proof.
  destruct (reset001_wipes_despite_kill_failure disk_kill_fails (λ files, files)
              disk_kill_fails_rm_rf_atomic (λ _, eq_refl) (λ _ _, eq_refl) (λ _ _ _, eq_refl)
              a_context a_disk (ErrorObj "kill timed out") eq_refl eq_refl eq_refl)
    as [Hr Hf].
  split; [exact Hf | exact Hr].
Defined.

(** ** The diagnose handler, as a reader *)

(** X7: on every sandbox the diagnose handler answers (it never throws),
    with HTTP status 200 when no call rejected and 500 otherwise.  It makes
    at most eight calls, each either [getLogs] or the start of one of its
    four fixed commands, none of which is an [rm -rf] line; it never asks
    for the gateway processes to be killed. *)
Theorem diagnose_only_reads (W : World) (c : Context) (s : wstate W) :
  let o := run W (Part001.diagnose c) s in
  (∃ body, result o = Fulfilled (Json body (if no_rejection (trace o) then 200 else 500)))
  ∧ (∀ cl, cl ∈ calls (trace o) →
           cl ∈ [cat_config; dump_env; ls_backup; ls_local] ∨ ∃ p, cl = getLogs p)
  ∧ (∀ cmd, startProcess cmd ∈ calls (trace o) → parse_rm_rf cmd = None)
  ∧ (killAllMoltbotProcesses ∉ calls (trace o))
  ∧ (length (calls (trace o)) ≤ 8)%nat.
Proof.
  assert (Hcalls : ∀ cl, cl ∈ calls (trace (run W (Part001.diagnose c) s)) →
            cl ∈ [cat_config; dump_env; ls_backup; ls_local] ∨ ∃ p, cl = getLogs p).
  { answers; intros cl Hcl;
      repeat (apply elem_of_cons in Hcl as [->|Hcl]);
      try (by apply elem_of_nil in Hcl);
      first [ by right; eexists | left; in_list ]. }
  cbn zeta. split_and!.
  - answers; eexists; reflexivity.
  - exact Hcalls.
  - intros cmd [Hin|[p Hp]]%Hcalls; [|discriminate].
    repeat (apply elem_of_cons in Hin as [Hin|Hin]); try (by apply elem_of_nil in Hin);
      unfold cat_config, dump_env, ls_backup, ls_local in Hin;
      injection Hin as ->; reflexivity.
  - intros [Hin|[p Hp]]%Hcalls; [|discriminate].
    repeat (apply elem_of_cons in Hin as [Hin|Hin]); try (by apply elem_of_nil in Hin);
      discriminate.
  - answers; lia.
Qed.

(** ** Routing *)

Lemma path_matches_reset (p : string) :
  path_matches "/reset-factory-defaults" p = bool_decide (p = "/reset-factory-defaults").
Proof. reflexivity. Qed.

Lemma path_matches_diagnose (p : string) :
  path_matches "/diagnose" p = bool_decide (p = "/diagnose").
Proof. reflexivity. Qed.

(** X8: every route but the reset is registered for GET only, which the
    router also serves for HEAD.  A request with any other method, for a
    path without percent-escapes, reaches the reset handler when its path
    is [/reset-factory-defaults] and no handler at all otherwise; this
    holds for the route tables of both files. *)
Theorem only_reset_answers_other_methods (MOLTBOT_PORT : Z) (c : Context) :
  method (req c) ≠ GET →
  method (req c) ≠ HEAD →
  percent_free (pathname (req c)) = true →
  dispatch (Part001.publicRoutes MOLTBOT_PORT) c
  = (if bool_decide (pathname (req c) = "/reset-factory-defaults")
     then Some (Part001.reset_factory_defaults c) else None)
  ∧ dispatch (Part000.publicRoutes MOLTBOT_PORT) c
    = (if bool_decide (pathname (req c) = "/reset-factory-defaults")
       then Some (Part000.reset_factory_defaults c) else None).
Proof.
  destruct c as [[m o p q] e]. cbn. intros Hm Hh _.
  unfold dispatch, Part001.publicRoutes, Part000.publicRoutes, get, all, route_matches.
  cbn [List.find r_method r_path r_handler req method pathname].
  destruct m; try done; cbn [routed_method bool_decide decide_rel andb];
    rewrite ?path_matches_reset, ?path_matches_diagnose.
  all: cbn -[path_matches].
  all: destruct (bool_decide (p = "/reset-factory-defaults")); done.
Qed.

(** X9: [part_001] changes the routing of two paths only.  A request for
    any path without percent-escapes other than [/diagnose] and
    [/reset-factory-defaults] reaches the same handler, or none, under
    both route tables, whatever its method. *)
Theorem tables_agree_elsewhere (MOLTBOT_PORT : Z) (c : Context) :
  percent_free (pathname (req c)) = true →
  pathname (req c) ≠ "/diagnose" →
  pathname (req c) ≠ "/reset-factory-defaults" →
  dispatch (Part000.publicRoutes MOLTBOT_PORT) c
  = dispatch (Part001.publicRoutes MOLTBOT_PORT) c.
Proof.
  destruct c as [[m o p q] e]. cbn. intros _ Hd Hr.
  unfold dispatch, Part001.publicRoutes, Part000.publicRoutes, get, all, route_matches.
  cbn [List.find r_method r_path r_handler req method pathname].
  rewrite !path_matches_reset, !path_matches_diagnose.
  rewrite !(bool_decide_eq_false_2 _ Hd), !(bool_decide_eq_false_2 _ Hr).
  rewrite !andb_false_r.
  repeat match goal with
         | |- context [bool_decide (GET = routed_method m) && path_matches ?pat p] =>
             destruct (bool_decide (GET = routed_method m) && path_matches pat p);
             [reflexivity|]
         end.
  reflexivity.
Qed.

Lemma tables_agree_elsewhere_witness :
  dispatch (Part000.publicRoutes 18789)
    {| req := {| method := HEAD; origin := "https://worker.example";
                 pathname := "/api/status"; search := "" |};
       env := {| MOLTBOT_GATEWAY_TOKEN := None |} |}
  = dispatch (Part001.publicRoutes 18789)
      {| req := {| method := HEAD; origin := "https://worker.example";
                   pathname := "/api/status"; search := "" |};
         env := {| MOLTBOT_GATEWAY_TOKEN := None |} |}.
Proof.
  apply (tables_agree_elsewhere 18789); [reflexivity | cbn; discriminate..].
Defined.

Lemma only_reset_answers_other_methods_witness :
  dispatch (Part001.publicRoutes 18789)
    {| req := {| method := POST; origin := "https://worker.example";
                 pathname := "/api/status"; search := "" |};
       env := {| MOLTBOT_GATEWAY_TOKEN := None |} |}
  = None.
Proof.
  etrans; [apply (only_reset_answers_other_methods 18789);
           [cbn; discriminate | cbn; discriminate | reflexivity]
          | reflexivity].
Defined.

(** The router serves HEAD through the GET routes: a HEAD request for
    [/diagnose] runs the diagnose handler, one for [/api/status] the status
    handler. *)
Example head_runs_the_get_handler :
  let head path := {| req := {| method := HEAD; origin := "https://worker.example";
                                pathname := path; search := "" |};
                      env := {| MOLTBOT_GATEWAY_TOKEN := None |} |} in
  dispatch (Part001.publicRoutes 18789) (head "/diagnose")
  = Some (Part001.diagnose (head "/diagnose"))
  ∧ dispatch (Part001.publicRoutes 18789) (head "/api/status")
    = Some (api_status (head "/api/status"))
  ∧ dispatch (Part000.publicRoutes 18789) (head "/diagnose") = None.
Proof. cbn zeta. split_and!; reflexivity. Qed.

(** ** The asset path rewrite *)

Lemma string_app_cons (a : Ascii.ascii) (s1 s2 : string) :
  String a s1 +:+ s2 = String a (s1 +:+ s2).
Proof. reflexivity. Qed.

Lemma string_app_empty (s : string) : "" +:+ s = s.
Proof. reflexivity. Qed.

Lemma string_prefix_cons (a : Ascii.ascii) (s1 s2 : string) :
  String.prefix (String a s1) (String a s2) = String.prefix s1 s2.
Proof. simpl. destruct (Ascii.ascii_dec a a); [done | congruence]. Qed.

Lemma string_prefix_app (pat rest : string) : String.prefix pat (pat +:+ rest) = true.
Proof.
  induction pat as [|a pat IH].
  - rewrite string_app_empty. by destruct rest.
  - by rewrite string_app_cons, string_prefix_cons.
Qed.

Lemma string_prefix_true (pat s : string) :
  String.prefix pat s = true → ∃ rest, s = pat +:+ rest.
Proof.
  revert s. induction pat as [|a pat IH]; intros s H.
  - by exists s.
  - destruct s as [|b s]; simpl in H; [done|].
    destruct (Ascii.ascii_dec a b) as [->|]; [|done].
    destruct (IH s H) as [rest ->]. by exists rest.
Qed.

Lemma substring_all (s : string) (m : nat) :
  (String.length s ≤ m)%nat → String.substring 0 m s = s.
Proof.
  revert m. induction s as [|a s IH]; intros m H; simpl in *.
  - by destruct m.
  - destruct m as [|m]; [lia|]. f_equal. apply IH. lia.
Qed.

Lemma substring_after (pat rest : string) (m : nat) :
  (String.length rest ≤ m)%nat →
  String.substring (String.length pat) m (pat +:+ rest) = rest.
Proof.
  intros H. induction pat as [|a pat IH].
  - rewrite string_app_empty. by apply substring_all.
  - rewrite string_app_cons. simpl. exact IH.
Qed.

Lemma string_length_app (s1 s2 : string) :
  String.length (s1 +:+ s2) = (String.length s1 + String.length s2)%nat.
Proof.
  induction s1 as [|a s1 IH]; [done|].
  rewrite string_app_cons. simpl. by rewrite IH.
Qed.

Lemma replace_first_unfold (pat rep s : string) :
  replace_first pat rep s
  = if String.prefix pat s
    then rep +:+ String.substring (String.length pat) (String.length s) s
    else match s with
         | "" => ""
         | String a s' => String a (replace_first pat rep s')
         end.
Proof. by destruct s. Qed.

Lemma replace_first_at_start (pat rep rest : string) :
  replace_first pat rep (pat +:+ rest) = rep +:+ rest.
Proof.
  rewrite replace_first_unfold, string_prefix_app, substring_after; [done|].
  rewrite string_length_app. lia.
Qed.

(** A string in which the pattern does not occur is returned as it is. *)
Lemma replace_first_absent (pat rep s : string) :
  (∀ pre post, s ≠ pre +:+ pat +:+ post) →
  replace_first pat rep s = s.
Proof.
  induction s as [|a s IH]; intros Habs; rewrite replace_first_unfold.
  - destruct (String.prefix pat "") eqn:E; [|done].
    apply string_prefix_true in E as [rest E]. by destruct (Habs "" rest).
  - destruct (String.prefix pat (String a s)) eqn:E.
    + apply string_prefix_true in E as [rest E]. by destruct (Habs "" rest).
    + f_equal. apply IH. intros pre post ->. by apply (Habs (String a pre) post).
Qed.

(** X10: for a request below [/_admin/assets/] the asset handler makes one
    call, the fetch of the same origin with the leading [/_admin/assets/]
    replaced by [/assets/] and the rest of the path kept as it is (a
    second [/_admin/assets/] further down is not rewritten), and hands on
    whatever that call settled with: the asset when it fulfilled, the
    rejection when it rejected (the handler has no [catch]). *)
Theorem admin_assets_rewrites (W : World) (c : Context) (s : wstate W) (rest : string) :
  pathname (req c) = "/_admin/assets/" +:+ rest →
  let o := run W (admin_assets c) s in
  let fetch := ASSETS_fetch {| method := method (req c);
                               origin := origin (req c);
                               pathname := "/assets/" +:+ rest;
                               search := "" |} in
  calls (trace o) = [fetch]
  ∧ result o = (respond W (Await fetch) s).1
  ∧ final o = (respond W (Await fetch) s).2.
Proof.
  intros Hp. unfold admin_assets. rewrite Hp, replace_first_at_start. done.
Qed.

Lemma admin_assets_rewrites_witness :
  result (run calm (admin_assets
            {| req := {| method := GET; origin := "https://worker.example";
                         pathname := "/_admin/assets/index-1a2b.js"; search := "" |};
               env := {| MOLTBOT_GATEWAY_TOKEN := None |} |}) tt)
  = Fulfilled (Asset "https://worker.example/assets/index-1a2b.js").
Proof.
  etrans; [exact (proj1 (proj2 (admin_assets_rewrites calm
                    {| req := {| method := GET; origin := "https://worker.example";
                                 pathname := "/_admin/assets/index-1a2b.js"; search := "" |};
                       env := {| MOLTBOT_GATEWAY_TOKEN := None |} |}
                    tt "index-1a2b.js" eq_refl)))
          | reflexivity].
Defined.

(** X11: for a path in which [/_admin/assets/] does not occur (the bare
    [/_admin/assets], which the wildcard route also matches, is one) the
    asset handler fetches the path as it is. *)
Theorem admin_assets_without_pattern (W : World) (c : Context) (s : wstate W) :
  (∀ pre post, pathname (req c) ≠ pre +:+ "/_admin/assets/" +:+ post) →
  calls (trace (run W (admin_assets c) s))
  = [ASSETS_fetch {| method := method (req c);
                      origin := origin (req c);
                      pathname := pathname (req c);
                      search := "" |}].
Proof.
  intros Habs. unfold admin_assets. by rewrite replace_first_absent.
Qed.

Lemma admin_assets_without_pattern_witness :
  calls (trace (run calm (admin_assets
            {| req := {| method := GET; origin := "https://worker.example";
                         pathname := "/_admin/assets"; search := "" |};
               env := {| MOLTBOT_GATEWAY_TOKEN := None |} |}) tt))
  = [ASSETS_fetch {| method := GET; origin := "https://worker.example";
                      pathname := "/_admin/assets"; search := "" |}].
Proof.
  etrans; [apply admin_assets_without_pattern | reflexivity].
  intros pre post E. cbn in E.
  apply (f_equal String.length) in E. rewrite !string_length_app in E. simpl in E. lia.
Defined.

(** ** The token script *)

Section TokenEncoding.
Import SetGatewayToken.

Lemma hex_of_byte_checked (b : Byte.byte) :
  match hex_of_byte b with
  | String hi (String lo "") =>
      bool_decide (hi ∈ String.list_ascii_of_string "0123456789abcdef")
      && bool_decide (lo ∈ String.list_ascii_of_string "0123456789abcdef")
      && match digit_value hi, digit_value lo with
         | Some h, Some l =>
             match Byte.of_N (16 * h + l) with
             | Some b' => Byte.eqb b' b
             | None => false
             end
         | _, _ => false
         end
  | _ => false
  end = true.
Proof. destruct b; vm_compute; reflexivity. Qed.

Lemma hex_of_byte_digits (b : Byte.byte) :
  ∃ hi lo, hex_of_byte b = String hi (String lo "")
           ∧ bool_decide (hi ∈ String.list_ascii_of_string "0123456789abcdef") = true
           ∧ bool_decide (lo ∈ String.list_ascii_of_string "0123456789abcdef") = true
           ∧ match digit_value hi, digit_value lo with
             | Some h, Some l => Byte.of_N (16 * h + l) = Some b
             | _, _ => False
             end.
Proof.
  pose proof (hex_of_byte_checked b) as H.
  destruct (hex_of_byte b) as [|hi [|lo [|]]]; try done.
  exists hi, lo.
  apply andb_true_iff in H as [[H1 H2]%andb_true_iff H3].
  split_and!; try done.
  destruct (digit_value hi), (digit_value lo); try done.
  destruct (Byte.of_N _) as [b'|]; [|done].
  f_equal. by apply Byte.byte_dec_bl.
Qed.

(** X13: the hexadecimal form of a buffer has two characters per byte, all
    of them among [0-9a-f]; for the 32 random bytes of the script this is
    a token of 64 characters. *)
Theorem token_is_hex (buf : list Byte.byte) :
  String.length (toString_hex buf) = (2 * length buf)%nat
  ∧ forallb (λ a, bool_decide (a ∈ String.list_ascii_of_string "0123456789abcdef"))
            (String.list_ascii_of_string (toString_hex buf)) = true.
Proof.
  set (f := λ a, bool_decide (a ∈ String.list_ascii_of_string "0123456789abcdef")).
  induction buf as [|b buf [IHl IHc]]; [done|].
  destruct (hex_of_byte_digits b) as (hi & lo & E & Hhi & Hlo & _).
  cbn [toString_hex]. rewrite E.
  change (String hi (String lo "") +:+ toString_hex buf)
    with (String hi (String lo (toString_hex buf))).
  split.
  - cbn [String.length length]. rewrite IHl. lia.
  - change (f hi && (f lo && forallb f (String.list_ascii_of_string (toString_hex buf)))
            = true).
    unfold f at 1 2. by rewrite Hhi, Hlo, IHc.
Qed.

Lemma from_hex_toString_hex (buf : list Byte.byte) :
  from_hex (toString_hex buf) = Some buf.
Proof.
  induction buf as [|b l IH]; [done|].
  destruct (hex_of_byte_digits b) as (hi & lo & E & _ & _ & Hv).
  cbn [toString_hex]. rewrite E.
  change (String hi (String lo "") +:+ toString_hex l)
    with (String hi (String lo (toString_hex l))).
  cbn [from_hex]. rewrite IH.
  destruct (digit_value hi), (digit_value lo); try done. by rewrite Hv.
Qed.

(** X14: the encoding loses nothing: two different buffers never give the
    same token. *)
Theorem toString_hex_inj (buf buf' : list Byte.byte) :
  toString_hex buf = toString_hex buf' → buf = buf'.
Proof.
  intros E. apply (f_equal from_hex) in E.
  rewrite !from_hex_toString_hex in E. congruence.
Qed.

Lemma toString_hex_inj_witness :
  take 2 SetGatewayToken.some_entropy = [Byte.x00; Byte.x00].
Proof. apply toString_hex_inj. reflexivity. Defined.

(** X15: a token made from a non-empty buffer is a non-empty string, so
    once it is the value of [MOLTBOT_GATEWAY_TOKEN] the diagnose handler
    reports the token as present. *)
Theorem generated_token_is_reported (buf : list Byte.byte) :
  buf ≠ [] →
  Part001.envConfig {| MOLTBOT_GATEWAY_TOKEN := Some (toString_hex buf) |} = "Has TOKEN env".
Proof.
  intros Hne. destruct buf as [|b buf]; [done|].
  destruct (hex_of_byte_digits b) as (hi & lo & E & _).
  unfold Part001.envConfig, truthy. cbn [MOLTBOT_GATEWAY_TOKEN toString_hex]. rewrite E.
  change (String hi (String lo "") +:+ toString_hex buf)
    with (String hi (String lo (toString_hex buf))).
  rewrite bool_decide_eq_true_2; [done | discriminate].
Qed.

Lemma generated_token_is_reported_witness :
  Part001.envConfig {| MOLTBOT_GATEWAY_TOKEN := Some (toString_hex some_entropy) |}
  = "Has TOKEN env".
Proof.
  apply (generated_token_is_reported some_entropy). discriminate.
Defined.

End TokenEncoding.

Section TokenScript.
Import SetGatewayToken.

(** A machine, with the files its state holds. *)
Variable M : Machine.
Variable files : mstate M → gmap string string.

(** Writing a file puts the data at the path or throws and changes
    nothing; unlinking removes the path or throws and changes nothing. *)
Hypothesis write_spec : ∀ path data s,
  let rs := answer M (writeFileSync path data) s in
  files rs.2 = if is_rejected rs.1 then files s else <[path := data]> (files s).
Hypothesis unlink_spec : ∀ path s,
  let rs := answer M (unlinkSync path) s in
  files rs.2 = if is_rejected rs.1 then files s else delete path (files s).

(** The command run by [execSync] only reads the temporary file; the
    random source and the console touch no file. *)
Hypothesis exec_keeps_temp : ∀ cmd s,
  files (answer M (execSync cmd) s).2 !! temp_file = files s !! temp_file.
Hypothesis random_keeps_files : ∀ n s,
  files (answer M (randomBytes n) s).2 = files s.
Hypothesis log_keeps_files : ∀ line s,
  files (answer M (console_log line) s).2 = files s.

Ltac reply :=
  match goal with
  | |- context [answer M ?o ?s] =>
      is_var s;
      let r := fresh "r" in
      let s' := fresh "s" in
      destruct (answer M o s) as [r s'] eqn:?; cbn in r;
      lazymatch type of r with
      | settled _ => destruct r as [[]|?]
      | unit => destruct r
      | _ => idtac
      end; cbn
  end.

Ltac follow :=
  repeat match goal with
  | E : answer M (console_log ?l) ?s = _ |- _ =>
      let H := fresh in
      pose proof (log_keeps_files l s) as H; rewrite E in H; cbn in H; clear E
  | E : answer M (randomBytes ?n) ?s = _ |- _ =>
      let H := fresh in
      pose proof (random_keeps_files n s) as H; rewrite E in H; cbn in H; clear E
  | E : answer M (writeFileSync ?p ?d) ?s = _ |- _ =>
      let H := fresh in
      pose proof (write_spec p d s) as H; rewrite E in H; cbn in H; clear E
  | E : answer M (unlinkSync ?p) ?s = _ |- _ =>
      let H := fresh in
      pose proof (unlink_spec p s) as H; rewrite E in H; cbn in H; clear E
  | E : answer M (execSync ?c) ?s = _ |- _ =>
      let H := fresh in
      pose proof (exec_keeps_temp c s) as H; rewrite E in H; cbn in H; clear E
  end.

Ltac eval_thrown :=
  repeat match goal with
  | |- context [thrown_by ?o ?t] =>
      let v := eval vm_compute in (thrown_by o t) in
      change (thrown_by o t) with v
  end.

(** X16: what the script leaves in [temp_token.txt].  When the script runs
    to its end the file is gone.  When [execSync] throws, the script ends
    with that exception and [unlinkSync] is never called; then, and also
    when [unlinkSync] itself throws, the file still holds the token in
    clear.  In every run the token written to the file is the hexadecimal
    form of the random bytes, the same string that was printed on the
    console, and no other file is written. *)
Theorem script_temp_file (s : mstate M) :
  let o := exec M main s in
  let r := o.1.1 in
  let t := o.1.2 in
  let s' := o.2 in
  (r = Fulfilled tt → files s' !! temp_file = None)
  ∧ (∀ err, thrown_by (execSync put_secret) t = Some err →
            r = Rejected err ∧ (unlinkSync temp_file ∉ asked t))
  ∧ (∀ err, thrown_by (execSync put_secret) t = Some err
            ∨ thrown_by (unlinkSync temp_file) t = Some err →
            files s' !! temp_file = toString_hex <$> generated t)
  ∧ ∃ buf, generated t = Some buf
           ∧ console_log (toString_hex buf) ∈ asked t
           ∧ ∀ path data, writeFileSync path data ∈ asked t →
                          path = temp_file ∧ data = toString_hex buf.
Proof.
  cbn. repeat reply; follow; eval_thrown; cbn; split_and!.
  all: try (intros; discriminate).
  all: try (intros err [?|?]; simplify_eq; cbn).
  all: try (intros err ?; simplify_eq; cbn; split; [reflexivity|];
            repeat (apply not_elem_of_cons; split; [discriminate|]);
            apply not_elem_of_nil).
  all: try (eexists; split_and!; [reflexivity | in_list |];
            intros path data Hin;
            repeat (apply elem_of_cons in Hin as [Hin|Hin]);
            try (by apply elem_of_nil in Hin); try discriminate;
            by injection Hin as -> ->).
  - intros _. match goal with H : files _ = delete _ _ |- _ => rewrite H end.
    apply lookup_delete_eq.
  - repeat match goal with
           | H : files _ = files _ |- _ => rewrite H
           | H : files _ !! _ = files _ !! _ |- _ => rewrite H
           | H : files _ = <[_:=_]> _ |- _ => rewrite H
           end.
    apply lookup_insert_eq.
  - repeat match goal with
           | H : files _ !! _ = files _ !! _ |- _ => rewrite H
           | H : files _ = <[_:=_]> _ |- _ => rewrite H
           end.
    apply lookup_insert_eq.
Qed.
End TokenScript.

Lemma desk_write_spec (entropy : list Byte.byte) (ok : bool) (path data : string)
    (s : gmap string string) :
  let rs := SetGatewayToken.answer (SetGatewayToken.desk entropy ok)
              (SetGatewayToken.writeFileSync path data) s in
  rs.2 = if is_rejected rs.1 then s else <[path := data]> s.
Proof. reflexivity. Qed.

Lemma desk_unlink_spec (entropy : list Byte.byte) (ok : bool) (path : string)
    (s : gmap string string) :
  let rs := SetGatewayToken.answer (SetGatewayToken.desk entropy ok)
              (SetGatewayToken.unlinkSync path) s in
  rs.2 = if is_rejected rs.1 then s else delete path s.
Proof. cbn. by destruct (s !! path). Qed.

Lemma script_temp_file_witness :
  (SetGatewayToken.exec (SetGatewayToken.desk SetGatewayToken.some_entropy true)
     SetGatewayToken.main ∅).2 !! SetGatewayToken.temp_file = None
  ∧ (SetGatewayToken.exec (SetGatewayToken.desk SetGatewayToken.some_entropy false)
       SetGatewayToken.main ∅).2 !! SetGatewayToken.temp_file
    = Some "00000000000000000000ffffffffffffffffffff3c3c3c3c3c3c3c3c3c3c3c3c".
Proof.
  split.
  - destruct (script_temp_file
                (SetGatewayToken.desk SetGatewayToken.some_entropy true) (λ files, files)
                (desk_write_spec _ _) (desk_unlink_spec _ _)
                (λ _ _, eq_refl) (λ _ _, eq_refl) (λ _ _, eq_refl) ∅) as (H & _).
    exact (H eq_refl).
  - destruct (script_temp_file
                (SetGatewayToken.desk SetGatewayToken.some_entropy false) (λ files, files)
                (desk_write_spec _ _) (desk_unlink_spec _ _)
                (λ _ _, eq_refl) (λ _ _, eq_refl) (λ _ _, eq_refl) ∅) as (_ & _ & H & _).
    exact (H (ErrorObj "Command failed") (or_introl eq_refl)).
Defined.
